(** * Exchange-rate fetcher, processor and orchestrator of [task.py]

    A shallow embedding of the three classes of [task.py]
    ([ExchangeRateFetcher], [ExchangeRateProcessor], [ExchangeRateApp]) and
    the properties of their specification.

    - Values that arrive from [response.json()] are Python values built by the
      JSON decoder: [None], [bool], [int], [float], [str], [list], [dict] with
      [str] keys.
    - The dictionaries the processor builds are finite maps ([gmap]).
    - Exceptions are values of [exn]; a computation that may raise returns
      [exn + A].
    - The orchestrator runs in a small trace-and-exception monad: the trace
      records the calls on the injected collaborators and the printed
      warnings, in the order they happen. *)

From stdpp Require Import base option list strings gmap fin_maps pretty.

Local Open Scope string_scope.
Local Open Scope list_scope.
Local Open Scope Z_scope.

Set Warnings "-register-all,-clear-no-such-hyp".

(** ** Python values decoded from JSON *)

(** A number is an [int] (unbounded) or a [float]; a float is kept as its
    IEEE-754 binary64 bit pattern, [0 <= bits < 2^64], so that copying it is
    exact and NaN and the infinities are values like any other. *)
Inductive pynum : Type :=
  | PInt (z : Z)
  | PFloat (bits : Z).

Inductive json : Type :=
  | JNull
  | JBool (b : bool)
  | JNum (n : pynum)
  | JStr (s : string)
  | JArr (items : list json)
  | JObj (fields : gmap string json).

(** [38.5], [38.0] and [1.0] as binary64. *)
Definition f38_5 : pynum := PFloat 0x4043400000000000.
Definition f38_0 : pynum := PFloat 0x4043000000000000.
Definition f1_0 : pynum := PFloat 0x3FF0000000000000.

(** Python truth value: [bool(x)]. Both float zeros are false. *)
Definition num_truthy (n : pynum) : bool :=
  match n with
  | PInt z => negb (Z.eqb z 0)
  | PFloat bits => negb (Z.eqb bits 0 || Z.eqb bits 0x8000000000000000)
  end.

Definition truthy (v : json) : bool :=
  match v with
  | JNull => false
  | JBool b => b
  | JNum n => num_truthy n
  | JStr s => negb (String.eqb s "")
  | JArr items => match items with [] => false | _ => true end
  | JObj fields => negb (bool_decide (fields = ∅))
  end.

(** ** Exceptions *)

(** The exceptions the code raises or meets. [ClientError] stands for what
    aiohttp raises on a transport failure or an undecodable body, with its
    text. [AttributeError] and [TypeError] are raised by the interpreter
    (a method that the value does not have, a value that is not iterable or
    not hashable); their text is the interpreter's and is not modelled. *)
Inductive exn : Type :=
  | ValueError (msg : string)
  | ConnectionError (msg : string)
  | ClientError (msg : string)
  | AttributeError
  | TypeError
  | KeyError.

(** Computations that may raise, without other effects: [inl e] is the
    exception [e] propagating, [inr x] is the value [x]. *)
#[global] Instance exn_ret : MRet (sum exn) := λ A x, inr x.
#[global] Instance exn_bind : MBind (sum exn) := λ A B k c,
  match c with
  | inl e => inl e
  | inr x => k x
  end.

(** [for x in xs: acc = step(acc, x)], stopping at the first exception. *)
Fixpoint foldE {A B : Type} (step : A → B → exn + A) (acc : A) (xs : list B)
  : exn + A :=
  match xs with
  | [] => inr acc
  | x :: xs' => acc' ← step acc x; foldE step acc' xs'
  end.

(** ** Operations of the Python data model used by the code *)

(** [obj.get(key, dflt)]: only a [dict] has the method. *)
Definition py_get (obj : json) (key : string) (dflt : json) : exn + json :=
  match obj with
  | JObj fields => inr (default dflt (fields !! key))
  | _ => inl AttributeError
  end.

(** [iter(obj)] as the list of the values the [for] loop visits. A [str]
    yields its characters, a [dict] its keys; the other values are not
    iterable. *)
Fixpoint chars (s : string) : list json :=
  match s with
  | EmptyString => []
  | String a s' => JStr (String a EmptyString) :: chars s'
  end.

Definition py_iter (obj : json) : exn + list json :=
  match obj with
  | JArr items => inr items
  | JStr s => inr (chars s)
  | JObj fields => inr (JStr <$> (map_to_list fields).*1)
  | JNull | JBool _ | JNum _ => inl TypeError
  end.

(** Values usable as dictionary keys: [list] and [dict] are unhashable. *)
Inductive pykey : Type :=
  | KNone
  | KBool (b : bool)
  | KNum (n : pynum)
  | KStr (s : string).

Definition py_hash (v : json) : exn + pykey :=
  match v with
  | JNull => inr KNone
  | JBool b => inr (KBool b)
  | JNum n => inr (KNum n)
  | JStr s => inr (KStr s)
  | JArr _ | JObj _ => inl TypeError
  end.

#[global] Instance pynum_eq_dec : EqDecision pynum.
Proof. solve_decision. Defined.

#[global] Instance pykey_eq_dec : EqDecision pykey.
Proof. solve_decision. Defined.

#[global] Instance pynum_countable : Countable pynum.
Proof.
  refine (inj_countable'
    (λ n, match n with PInt z => inl z | PFloat b => inr b end)
    (λ s, match s with inl z => PInt z | inr b => PFloat b end) _).
  by intros [].
Defined.

#[global] Instance pykey_countable : Countable pykey.
Proof.
  refine (inj_countable'
    (λ k, match k with
          | KNone => inl ()
          | KBool b => inr (inl b)
          | KNum n => inr (inr (inl n))
          | KStr s => inr (inr (inr s))
          end)
    (λ s, match s with
          | inl _ => KNone
          | inr (inl b) => KBool b
          | inr (inr (inl n)) => KNum n
          | inr (inr (inr s)) => KStr s
          end) _).
  by intros [].
Defined.

(** [x in currencies] for a list of [str]: only an equal [str] is found. *)
Definition py_in (x : json) (currencies : list string) : bool :=
  match x with
  | JStr s => bool_decide (s ∈ currencies)
  | _ => false
  end.

(** ** ExchangeRateProcessor *)

(** One currency's record: [{}] or [{"sale": .., "purchase": ..}]. *)
Abbreviation CurrencyRate := (gmap string json) (only parsing).
(** The table of one date: [{date: {currency: CurrencyRate}}]. *)
Abbreviation DailyRateTable :=
  (gmap pykey (gmap string (gmap string json))) (only parsing).

(** [{currency: {} for currency in currencies}] *)
Definition empty_rates (currencies : list string) : gmap string CurrencyRate :=
  foldl (λ m currency, <[currency := ∅]> m) ∅ currencies.

(** [processed_data[date][currency] = value] *)
Definition set_rate (processed_data : DailyRateTable) (date : pykey)
    (currency : string) (value : CurrencyRate) : exn + DailyRateTable :=
  match processed_data !! date with
  | Some rates => inr (<[date := <[currency := value]> rates]> processed_data)
  | None => inl KeyError
  end.

(** The body of the [for rate in exchange_rates] loop. *)
Definition process_rate (currencies : list string) (date : pykey)
    (processed_data : DailyRateTable) (rate : json) : exn + DailyRateTable :=
  currency ← py_get rate "currency" JNull ;
  if py_in currency currencies then
    sale ← py_get rate "saleRateNB" JNull ;
    purchase ← py_get rate "purchaseRateNB" JNull ;
    match currency with
    | JStr c =>
        set_rate processed_data date c
          (<["purchase" := purchase]> (<["sale" := sale]> ∅))
    | _ => inr processed_data
    end
  else inr processed_data.

Definition process_exchange_rates (data : json) (currencies : list string)
  : exn + DailyRateTable :=
  date ← py_get data "date" JNull ;
  exchange_rates ← py_get data "exchangeRate" (JArr []) ;
  key ← py_hash date ;
  let processed_data : DailyRateTable := {[ key := empty_rates currencies ]} in
  rates ← py_iter exchange_rates ;
  foldE (process_rate currencies key) processed_data rates.

(** ** Dates *)

(** [date.strftime("%d.%m.%Y")] of the proleptic Gregorian date with ordinal
    [ord] (day 1 is 0001-01-01, as [date.toordinal]); the year has four
    digits from year 1000 on. *)
Definition ymd_of_ordinal (ord : Z) : Z * Z * Z :=
  let z := ord + 305 in
  let era := z `div` 146097 in
  let doe := z - era * 146097 in
  let yoe := (doe - doe `div` 1460 + doe `div` 36524 - doe `div` 146096) `div` 365 in
  let doy := doe - (365 * yoe + yoe `div` 4 - yoe `div` 100) in
  let mp := (5 * doy + 2) `div` 153 in
  let d := doy - (153 * mp + 2) `div` 5 + 1 in
  let m := if mp <? 10 then mp + 3 else mp - 9 in
  let y := yoe + era * 400 + (if m <=? 2 then 1 else 0) in
  (y, m, d).

Definition pad2 (n : Z) : string :=
  if n <? 10 then "0" +:+ pretty n else pretty n.

Definition strftime_dmy (ord : Z) : string :=
  let '(y, m, d) := ymd_of_ordinal ord in
  pad2 d +:+ "." +:+ pad2 m +:+ "." +:+ pretty y.

(** ** ExchangeRateFetcher *)

(** What [session.get(url)] and [response.json()] do for one request. *)
Inductive Response : Type :=
  | TransportFailure (cause : string)
      (* session.get raises; [cause] is the text of the exception *)
  | HttpResponse (status : Z) (body : string + json).
      (* [body]: [inl cause] when response.json() raises, else the value *)

Definition API_URL (date : string) : string :=
  "https://api.privatbank.ua/p24api/exchange_rates?json&date=" +:+ date.

(** [str(e)] of a caught exception that carries its text; the [try] block of
    the fetcher raises no other. *)
Definition exn_str (e : exn) : string :=
  match e with
  | ValueError msg | ConnectionError msg | ClientError msg => msg
  | AttributeError | TypeError | KeyError => ""
  end.

(** The body of the [try] block of [fetch_exchange_rate]. *)
Definition fetch_try (session_get : string → Response) (url : string)
  : exn + json :=
  match session_get url with
  | TransportFailure cause => inl (ClientError cause)
  | HttpResponse status body =>
      if status =? 200 then
        match body with
        | inl cause => inl (ClientError cause)
        | inr value => inr value
        end
      else inl (ValueError ("Помилка отримання даних: " +:+ pretty status))
  end.

(** [except Exception as e] catches every exception of the [try] block,
    the [ValueError] of the non-200 branch included. *)
Definition fetch_exchange_rate (session_get : string → Response)
    (date : string) : exn + json :=
  let url := API_URL date in
  match fetch_try session_get url with
  | inr value => inr value
  | inl e => inl (ConnectionError ("Не вдалося отримати дані з API: " +:+ exn_str e))
  end.

(** ** Trace-and-exception monad of the orchestrator *)

Inductive event : Type :=
  | EvSessionOpen
  | EvSessionClose
  | EvFetch (date : string)
      (* fetcher.fetch_exchange_rate(session, date) is called *)
  | EvProcess (data : json)
      (* processor.process_exchange_rates(data, currencies) is called *)
  | EvWarning (date : json).
      (* print(f"Попередження: Дані для дати {date} відсутні або не оновлені.") *)

Definition M (A : Type) : Type := list event → (exn + A) * list event.

#[global] Instance M_ret : MRet M := λ A x tr, (inr x, tr).
#[global] Instance M_bind : MBind M := λ A B k c tr,
  match c tr with
  | (inl e, tr') => (inl e, tr')
  | (inr x, tr') => k x tr'
  end.

Definition emit (e : event) : M () := λ tr, (inr (), tr ++ [e]).
Definition lift {A : Type} (c : exn + A) : M A := λ tr, (c, tr).
Definition raise {A : Type} (e : exn) : M A := λ tr, (inl e, tr).

(** [async with aiohttp.ClientSession() as session: body]: the session is
    closed on the way out, whether [body] returns or raises. *)
Definition with_session {A : Type} (body : M A) : M A := λ tr,
  let '(r, tr') := body (tr ++ [EvSessionOpen]) in (r, tr' ++ [EvSessionClose]).

(** [[f(x) for x in xs]] with effects, left to right. *)
Fixpoint forM {A B : Type} (f : A → M B) (xs : list A) : M (list B) :=
  match xs with
  | [] => mret []
  | x :: xs' => y ← f x; ys ← forM f xs'; mret (y :: ys)
  end.

(** ** The world of one call *)

Record World : Type := {
  (** the ordinal of the local date at the [i]-th call of [datetime.now()] *)
  now : nat → Z;
  (** what the [i]-th dispatched task's [session.get(url)] meets *)
  http_get : nat → string → Response;
  (** when the [i]-th task completes *)
  finish_time : nat → nat;
}.

(** [asyncio.gather] over the tasks: every task runs; if one raises, the
    exception of the first task to fail in time propagates (the earliest dispatched
    among those that fail together), otherwise the results are returned in
    the order of the tasks. *)
Fixpoint first_failure (finish : nat → nat) (i : nat)
    (tasks : list (exn + json)) : option (nat * exn) :=
  match tasks with
  | [] => None
  | task :: tasks' =>
      let later := first_failure finish (S i) tasks' in
      match task with
      | inr _ => later
      | inl e =>
          match later with
          | Some (t, _) => if Nat.ltb t (finish i) then later else Some (finish i, e)
          | None => Some (finish i, e)
          end
      end
  end.

Definition results (tasks : list (exn + json)) : list json :=
  omap (λ task, match task with inr v => Some v | inl _ => None end) tasks.

Definition gather (finish : nat → nat) (tasks : list (exn + json))
  : exn + list json :=
  match first_failure finish 0 tasks with
  | Some (_, e) => inl e
  | None => inr (results tasks)
  end.

(** ** ExchangeRateApp *)

Definition unknown_date : json := JStr "Невідома дата".

(** [(datetime.now() - timedelta(days=i)).strftime("%d.%m.%Y")] *)
Definition date_back (w : World) (i : nat) : string :=
  strftime_dmy (now w i - Z.of_nat i).

(** The [for i in range(days)] loop: each call of the fetcher creates the
    task; the tasks run in [gather]. *)
Definition dispatch (w : World) (days : Z) : M (list (exn + json)) :=
  forM (λ i, let date := date_back w i in
             _ ← emit (EvFetch date);
             mret (fetch_exchange_rate (http_get w i) date))
       (seq 0 (Z.to_nat days)).

(** [data and data.get("exchangeRate")] as a condition. *)
Definition has_rates (data : json) : exn + bool :=
  if truthy data then v ← py_get data "exchangeRate" JNull; mret (truthy v)
  else mret false.

(** [not data or not data.get("exchangeRate")] *)
Definition no_rates (data : json) : exn + bool :=
  if negb (truthy data) then mret true
  else v ← py_get data "exchangeRate" JNull; mret (negb (truthy v)).

(** The list comprehension of lines 71-74. *)
Fixpoint process_all (currencies : list string) (raw_data : list json)
  : M (list DailyRateTable) :=
  match raw_data with
  | [] => mret []
  | data :: rest =>
      keep ← lift (has_rates data);
      if keep : bool then
        _ ← emit (EvProcess data);
        table ← lift (process_exchange_rates data currencies);
        tables ← process_all currencies rest;
        mret (table :: tables)
      else process_all currencies rest
  end.

(** [data.get("date", "Невідома дата") if data else "Невідома дата"] *)
Definition warning_date (data : json) : exn + json :=
  if truthy data then py_get data "date" unknown_date else mret unknown_date.

(** The warning loop of lines 76-79. *)
Fixpoint warn_all (raw_data : list json) : M () :=
  match raw_data with
  | [] => mret ()
  | data :: rest =>
      missing ← lift (no_rates data);
      _ ← (if missing : bool then
             date ← lift (warning_date data); emit (EvWarning date)
           else mret ());
      warn_all rest
  end.

Definition get_exchange_rates (w : World) (days : Z) (currencies : list string)
  : M (list DailyRateTable) :=
  if (days <? 1) || (days >? 10) then
    raise (ValueError "Кількість днів повинна бути від 1 до 10.")
  else
    raw_data ← with_session (tasks ← dispatch w days;
                             lift (gather (finish_time w) tasks));
    processed_data ← process_all currencies raw_data;
    _ ← warn_all raw_data;
    mret processed_data.

(** ** Concrete payloads *)

Definition usd_fields : gmap string json :=
  <["currency" := JStr "USD"]>
    (<["saleRateNB" := JNum f38_5]>
    (<["purchaseRateNB" := JNum f38_0]> ∅)).

Definition usd_entry : json := JObj usd_fields.

Definition xyz_entry : json :=
  JObj (<["currency" := JStr "XYZ"]>
       (<["saleRateNB" := JNum f1_0]>
       (<["purchaseRateNB" := JNum f1_0]> ∅))).

Definition payload_2024 : json :=
  JObj (<["date" := JStr "01.01.2024"]>
       (<["exchangeRate" := JArr [usd_entry; xyz_entry]]> ∅)).

Definition table_2024 : DailyRateTable :=
  {[ KStr "01.01.2024" :=
       <["USD" := <["sale" := JNum f38_5]> (<["purchase" := JNum f38_0]> ∅)]>
       (<["EUR" := ∅]> ∅) ]}.

(** More concrete payloads: an entry without rate fields, a second USD
    entry, a payload without a date, one whose only entry is a number, one
    whose [exchangeRate] is a number, and one with two USD entries. *)
Definition bare_usd_fields : gmap string json :=
  <["currency" := JStr "USD"]> ∅.

Definition late_usd_fields : gmap string json :=
  <["currency" := JStr "USD"]>
    (<["saleRateNB" := JNum f1_0]>
    (<["purchaseRateNB" := JNum f1_0]> ∅)).

Definition payload_bare : json :=
  JObj (<["date" := JStr "01.01.2024"]>
       (<["exchangeRate" := JArr [JObj bare_usd_fields]]> ∅)).

Definition payload_no_date_fields : gmap string json :=
  <["exchangeRate" := JArr [usd_entry; xyz_entry]]> ∅.

Definition payload_bad_entry : json :=
  JObj (<["date" := JStr "01.01.2024"]>
       (<["exchangeRate" := JArr [JNum (PInt 1)]]> ∅)).

Definition payload_bad_sequence : json :=
  JObj (<["date" := JStr "01.01.2024"]>
       (<["exchangeRate" := JNum (PInt 5)]> ∅)).

Definition payload_twice : json :=
  JObj (<["date" := JStr "01.01.2024"]>
       (<["exchangeRate" := JArr [usd_entry; JObj late_usd_fields]]> ∅)).

(** ** Shapes of payloads *)

Definition is_record (v : json) : bool :=
  match v with JObj _ => true | _ => false end.

Definition hashable (v : json) : bool :=
  match v with JArr _ | JObj _ => false | _ => true end.

(** A record whose date is missing or a scalar and whose [exchangeRate] is
    missing or a sequence of records. No key is required to be present, in
    the payload or in an entry. *)
Definition well_shaped (data : json) : bool :=
  match data with
  | JObj fields =>
      hashable (default JNull (fields !! "date")) &&
      match default (JArr []) (fields !! "exchangeRate") with
      | JArr entries => forallb is_record entries
      | _ => false
      end
  | _ => false
  end.

(** The rate entries of a payload and the currency code of an entry. *)
Definition payload_entries (data : json) : list json :=
  match data with
  | JObj fields =>
      match fields !! "exchangeRate" with
      | Some (JArr entries) => entries
      | _ => []
      end
  | _ => []
  end.

Definition entry_currency (entry : json) : option string :=
  match entry with
  | JObj fields =>
      match fields !! "currency" with
      | Some (JStr c) => Some c
      | _ => None
      end
  | _ => None
  end.

(** What one visited entry does to the currency mapping, and the record it
    writes ([process_rate_record] below relates them to [process_rate]). *)
Definition rate_record (fields : gmap string json) : gmap string json :=
  <["purchase" := default JNull (fields !! "purchaseRateNB")]>
    (<["sale" := default JNull (fields !! "saleRateNB")]> ∅).

Definition apply_entry (currencies : list string)
    (rates : gmap string (gmap string json)) (entry : json)
  : gmap string (gmap string json) :=
  match entry with
  | JObj fields =>
      match entry_currency entry with
      | Some c =>
          if bool_decide (c ∈ currencies) then <[c := rate_record fields]> rates
          else rates
      | None => rates
      end
  | _ => rates
  end.

(** ** Payloads as the orchestrator sees them *)

(** The tasks and the dates of a call for [n] days, in dispatch order. *)
Definition dates_of (w : World) (n : nat) : list string :=
  date_back w <$> seq 0 n.

Definition tasks_of (w : World) (n : nat) : list (exn + json) :=
  (λ i, fetch_exchange_rate (http_get w i) (date_back w i)) <$> seq 0 n.





(** The parts of a trace. *)
Definition fetched (tr : list event) : list string :=
  omap (λ e, match e with EvFetch date => Some date | _ => None end) tr.

Definition processed (tr : list event) : list json :=
  omap (λ e, match e with EvProcess data => Some data | _ => None end) tr.

Definition warnings (tr : list event) : list json :=
  omap (λ e, match e with EvWarning date => Some date | _ => None end) tr.

(** ** Concrete worlds *)

Definition day_2024_01_01 : Z := 738886.

Definition payload_empty : json :=
  JObj (<["date" := JStr "31.12.2023"]> (<["exchangeRate" := JArr []]> ∅)).

(** Three days back from 01.01.2024; the second request meets HTTP 503. *)
Definition world_503 : World := {|
  now := λ _, day_2024_01_01;
  http_get := λ i _, if Nat.eqb i 1 then HttpResponse 503 (inr JNull)
                     else HttpResponse 200 (inr payload_2024);
  finish_time := λ i, i;
|}.

(** Every request succeeds: rate data for the first date, an empty sequence
    for the second, a [null] body for the others. *)
Definition world_ok : World := {|
  now := λ _, day_2024_01_01;
  http_get := λ i _, HttpResponse 200 (inr
    (match i with
     | O => payload_2024
     | S O => payload_empty
     | _ => JNull
     end));
  finish_time := λ i, i;
|}.

(** ** Payloads the processor accepts *)

(** The values whose iteration visits records only: a sequence of records,
    or a [str] or [dict] with nothing to visit. *)
Definition iterable_of_records (v : json) : bool :=
  match v with
  | JArr entries => forallb is_record entries
  | JStr s => String.eqb s ""
  | JObj fields => bool_decide (fields = ∅)
  | JNull | JBool _ | JNum _ => false
  end.

Definition processable (data : json) : bool :=
  match data with
  | JObj fields =>
      hashable (default JNull (fields !! "date")) &&
      iterable_of_records (default (JArr []) (fields !! "exchangeRate"))
  | _ => false
  end.

(** The entry names a requested currency. *)
Definition requested (currencies : list string) (entry : json) : bool :=
  match entry_currency entry with
  | Some c => bool_decide (c ∈ currencies)
  | None => false
  end.

(** The two forms of a record of the currency mapping. *)
Definition record_shape (record : gmap string json) : Prop :=
  record = ∅ ∨ dom record = {[ "sale"; "purchase" ]}.

(** The payloads that the list comprehension keeps. *)
Definition kept (data : json) : bool :=
  match has_rates data with
  | inr keep => keep
  | inl _ => false
  end.

(** The text of the [ValueError] of line 61. *)
Definition validation_text : string := "Кількість днів повинна бути від 1 до 10.".

(** The session events of a trace. *)
Definition session_events (tr : list event) : list event :=
  List.filter (λ e, match e with
                    | EvSessionOpen | EvSessionClose => true
                    | _ => false
                    end) tr.

(** ** main *)

(** [s.split(sep)] for a separator of one ASCII character: the pieces between
    the separators, empty pieces included; never an empty list. *)
Fixpoint split_on (sep : Ascii.ascii) (s : string) : list string :=
  match s with
  | EmptyString => [EmptyString]
  | String a s' =>
      if Ascii.eqb a sep then EmptyString :: split_on sep s'
      else match split_on sep s' with
           | piece :: pieces => String a piece :: pieces
           | [] => [String a EmptyString]
           end
  end.

(** What [main] writes and does: the events of the call of the application,
    a printed line, the printed result, or [print(f"{prefix}: {e}")] for a
    caught exception [e]. *)
Inductive output : Type :=
  | OutApp (e : event)
  | OutLine (line : string)
  | OutRates (rates : list (gmap pykey (gmap string (gmap string json))))
  | OutError (prefix : string) (e : exn).

Definition usage_line : string :=
  "Використання: py main.py <кількість_днів> [валюти через кому]".

(** The three handlers of [main], in their order: [except ValueError],
    [except ConnectionError], [except Exception]. *)
Definition report (e : exn) : output :=
  match e with
  | ValueError _ => OutError "Помилка" e
  | ConnectionError _ => OutError "Мережева помилка" e
  | ClientError _ | AttributeError | TypeError | KeyError =>
      OutError "Непередбачена помилка" e
  end.

(** The separator [","]. *)
Definition comma : Ascii.ascii := Ascii.ascii_of_N 44.

(** [sys.argv[2].split(",") if len(sys.argv) > 2 else ["EUR", "USD"]], on
    the arguments after [sys.argv[1]]. *)
Definition currencies_of (rest : list string) : list string :=
  match rest with
  | arg :: _ => split_on comma arg
  | [] => ["EUR"; "USD"]
  end.

(** [main()] on [sys.argv]. [py_int] is the builtin [int] on a [str]: the
    integer, or [inl msg] when it raises [ValueError(msg)]. *)
Definition main (py_int : string → string + Z) (w : World)
    (argv : list string) : list output :=
  match argv with
  | [] | [_] => [OutLine usage_line]
  | _ :: days_arg :: rest =>
      match py_int days_arg with
      | inl msg => [report (ValueError msg)]
      | inr days =>
          let currencies := currencies_of rest in
          let '(r, tr) := get_exchange_rates w days currencies [] in
          (OutApp <$> tr) ++
          match r with
          | inr rates => [OutRates rates]
          | inl e => [report e]
          end
      end
  end.

(** The lines [main] prints itself. *)
Definition own_lines (out : list output) : list output :=
  List.filter (λ o, match o with OutApp _ => false | _ => true end) out.

(** A reader of decimal digits, for running [main] on concrete arguments:
    it stands for [int] on strings of ASCII digits only. *)
Definition digit_of (a : Ascii.ascii) : option Z :=
  let n := Z.of_N (Ascii.N_of_ascii a) in
  if (48 <=? n) && (n <=? 57) then Some (n - 48) else None.

Fixpoint read_digits (acc : Z) (s : string) : option Z :=
  match s with
  | EmptyString => Some acc
  | String a s' =>
      match digit_of a with
      | Some d => read_digits (10 * acc + d) s'
      | None => None
      end
  end.

Definition int_of_digits (s : string) : string + Z :=
  match s with
  | EmptyString => inl "invalid literal for int() with base 10: ''"
  | _ =>
      match read_digits 0 s with
      | Some z => inr z
      | None => inl ("invalid literal for int() with base 10: '" +:+ s +:+ "'")
      end
  end.

(** * Properties *)

(** ** The processor: lemmas *)

Lemma process_rate_record currencies key rates fields :
  process_rate currencies key {[ key := rates ]} (JObj fields)
  = inr {[ key := apply_entry currencies rates (JObj fields) ]}.
Proof.
  unfold process_rate, apply_entry, entry_currency; simpl.
  destruct (fields !! "currency") as [[| | |c| |]|]; simpl; try reflexivity.
  destruct (bool_decide (c ∈ currencies)); simpl; [|reflexivity].
  unfold set_rate. rewrite lookup_singleton_eq, insert_singleton_eq.
  reflexivity.
Qed.

Lemma process_rate_not_record currencies key table entry :
  is_record entry = false →
  process_rate currencies key table entry = inl AttributeError.
Proof. by destruct entry. Qed.

Lemma fold_records currencies key entries : ∀ rates,
  forallb is_record entries = true →
  foldE (process_rate currencies key) {[ key := rates ]} entries
  = inr {[ key := foldl (apply_entry currencies) rates entries ]}.
Proof.
  induction entries as [|entry entries IH]; intros rates Hrec; [reflexivity|].
  simpl in Hrec. apply andb_true_iff in Hrec as [Hentry Hrest].
  destruct entry; try discriminate Hentry.
  cbn [foldE foldl]. rewrite process_rate_record. simpl. by apply IH.
Qed.

Lemma fold_returns_records currencies key entries : ∀ table table',
  foldE (process_rate currencies key) table entries = inr table' →
  forallb is_record entries = true.
Proof.
  induction entries as [|entry entries IH]; intros table table' Hfold;
    [reflexivity|].
  cbn [foldE] in Hfold. simpl.
  destruct (is_record entry) eqn:Hentry.
  - destruct (process_rate currencies key table entry) as [e|next];
      [discriminate Hfold|]. simpl in Hfold. eauto.
  - by rewrite process_rate_not_record in Hfold.
Qed.


(** The loop visits records only when it ends without an exception, and a
    non-sequence that can be iterated at all is then empty. *)
Lemma iter_records_entries value rates :
  py_iter value = inr rates →
  forallb is_record rates = true →
  rates = match value with JArr entries => entries | _ => [] end.
Proof.
  destruct value as [| | |s|entries|fields]; simpl; intros Hiter Hrec;
    try discriminate Hiter; injection Hiter as <-.
  - by destruct s.
  - reflexivity.
  - by destruct (map_to_list fields) as [|[k v] rest].
Qed.

(** Every return of the processor has this form. *)
Lemma process_returns data currencies table :
  process_exchange_rates data currencies = inr table →
  ∃ fields key,
    data = JObj fields ∧
    py_hash (default JNull (fields !! "date")) = inr key ∧
    forallb is_record (payload_entries data) = true ∧
    table = {[ key := foldl (apply_entry currencies) (empty_rates currencies)
                        (payload_entries data) ]}.
Proof.
  unfold process_exchange_rates. intros Hrun.
  destruct data as [| | | | |fields]; try discriminate Hrun.
  simpl in Hrun.
  destruct (py_hash (default JNull (fields !! "date"))) as [e|key] eqn:Hkey;
    [discriminate Hrun|]. simpl in Hrun.
  destruct (py_iter (default (JArr []) (fields !! "exchangeRate")))
    as [e|rates] eqn:Hiter; [discriminate Hrun|]. simpl in Hrun.
  pose proof (fold_returns_records _ _ _ _ _ Hrun) as Hrec.
  pose proof (iter_records_entries _ _ Hiter Hrec) as Hrates.
  assert (rates = payload_entries (JObj fields)) as ->.
  { rewrite Hrates. simpl. by destruct (fields !! "exchangeRate") as [[]|]. }
  rewrite fold_records in Hrun by done. injection Hrun as <-.
  exists fields, key. done.
Qed.

(** On a well-shaped payload the processor returns. *)
Lemma process_well_shaped data currencies :
  well_shaped data = true →
  ∃ fields key,
    data = JObj fields ∧
    py_hash (default JNull (fields !! "date")) = inr key ∧
    process_exchange_rates data currencies
    = inr {[ key := foldl (apply_entry currencies) (empty_rates currencies)
                      (payload_entries data) ]}.
Proof.
  destruct data as [| | | | |fields]; try discriminate. simpl.
  intros [Hdate Hrates]%andb_true_iff.
  assert (∃ key, py_hash (default JNull (fields !! "date")) = inr key)
    as [key Hkey].
  { destruct (default JNull (fields !! "date")); try discriminate Hdate;
      simpl; eauto. }
  exists fields, key. split; [done|]. split; [done|].
  unfold process_exchange_rates. simpl. rewrite Hkey. simpl.
  destruct (fields !! "exchangeRate") as [[| | | |entries|]|];
    try discriminate Hrates; simpl.
  - by rewrite fold_records.
  - reflexivity.
Qed.

(** The keys of the currency mapping. *)
Lemma dom_empty_rates currencies :
  dom (empty_rates currencies) = list_to_set currencies.
Proof.
  unfold empty_rates.
  assert (∀ (m : gmap string (gmap string json)),
    dom (foldl (λ m c, <[c := ∅]> m) m currencies)
    = list_to_set currencies ∪ dom m) as Hgen.
  { induction currencies as [|c cs IH]; intros m; simpl.
    - set_solver.
    - rewrite IH, dom_insert_L. set_solver. }
  rewrite Hgen, dom_empty_L. set_solver.
Qed.

Lemma lookup_empty_rates currencies c :
  c ∈ currencies → empty_rates currencies !! c = Some ∅.
Proof.
  unfold empty_rates.
  assert (∀ (m : gmap string (gmap string json)),
    c ∈ currencies ∨ m !! c = Some ∅ →
    foldl (λ m c, <[c := ∅]> m) m currencies !! c = Some ∅) as Hgen.
  { induction currencies as [|c' cs IH]; intros m Hc; simpl.
    - destruct Hc as [Hc|Hc]; [by apply elem_of_nil in Hc|done].
    - apply IH. destruct (decide (c = c')) as [->|Hne].
      + right. apply lookup_insert_eq.
      + destruct Hc as [Hc|Hc].
        * left. apply elem_of_cons in Hc as [?|?]; done.
        * right. by rewrite lookup_insert_ne. }
  intros Hc. apply Hgen. by left.
Qed.

Lemma dom_apply_entry currencies rates entry :
  list_to_set currencies ⊆ dom rates →
  dom (apply_entry currencies rates entry) = dom rates.
Proof.
  intros Hsub. unfold apply_entry. destruct entry; try reflexivity.
  destruct (entry_currency _) as [c|]; [|reflexivity].
  case_bool_decide as Hc; [|reflexivity].
  rewrite dom_insert_L. set_solver.
Qed.

Lemma dom_fold_entries currencies entries : ∀ rates,
  list_to_set currencies ⊆ dom rates →
  dom (foldl (apply_entry currencies) rates entries) = dom rates.
Proof.
  induction entries as [|entry entries IH]; intros rates Hsub; [reflexivity|].
  simpl. rewrite IH; rewrite dom_apply_entry; done.
Qed.

(** An entry for another currency, or for none, leaves [c] alone. *)
Lemma lookup_apply_entry_ne currencies rates entry c :
  entry_currency entry ≠ Some c →
  apply_entry currencies rates entry !! c = rates !! c.
Proof.
  intros Hne. unfold apply_entry. destruct entry; try reflexivity.
  destruct (entry_currency _) as [c'|]; [|reflexivity].
  case_bool_decide; [|reflexivity].
  rewrite lookup_insert_ne; [done|congruence].
Qed.

Lemma lookup_fold_entries_ne currencies c entries : ∀ rates,
  Forall (λ entry, entry_currency entry ≠ Some c) entries →
  foldl (apply_entry currencies) rates entries !! c = rates !! c.
Proof.
  induction entries as [|entry entries IH]; intros rates Hall; [reflexivity|].
  apply Forall_cons in Hall as [Hentry Hrest]. simpl.
  rewrite IH by done. by apply lookup_apply_entry_ne.
Qed.

(** The last entry for a requested currency decides its record. *)
Lemma lookup_fold_entries_last currencies c fields before after rates :
  c ∈ currencies →
  entry_currency (JObj fields) = Some c →
  Forall (λ entry, entry_currency entry ≠ Some c) after →
  foldl (apply_entry currencies) rates (before ++ JObj fields :: after) !! c
  = Some (rate_record fields).
Proof.
  intros Hc Hcur Hafter. rewrite foldl_app. cbn [foldl].
  rewrite lookup_fold_entries_ne by done.
  unfold apply_entry. rewrite Hcur.
  rewrite bool_decide_true by done. apply lookup_insert_eq.
Qed.


(** ** The processor: claims *)

(** C2 (as amended): when the loop visits an entry whose currency is
    requested, it overwrites that currency's record with one that has exactly
    the keys [sale] and [purchase], holding the entry's [saleRateNB] and
    [purchaseRateNB] unchanged; a field that the entry lacks is present in
    the record with the value [None]. *)
Theorem process_rate_copies_fields currencies key
    (table : DailyRateTable) rates fields c :
  table !! key = Some rates →
  fields !! "currency" = Some (JStr c) →
  c ∈ currencies →
  ∃ record : gmap string json,
    process_rate currencies key table (JObj fields)
    = inr (<[key := <[c := record]> rates]> table) ∧
    record !! "sale" = Some (default JNull (fields !! "saleRateNB")) ∧
    record !! "purchase" = Some (default JNull (fields !! "purchaseRateNB")) ∧
    dom record = {[ "sale"; "purchase" ]}.
Proof.
  intros Htable Hcur Hc. exists (rate_record fields). split; [|split; [|split]].
  - unfold process_rate, set_rate. simpl. rewrite Hcur. simpl.
    rewrite bool_decide_true by done. simpl. by rewrite Htable.
  - unfold rate_record. by rewrite lookup_insert_ne, lookup_insert_eq.
  - unfold rate_record. by rewrite lookup_insert_eq.
  - unfold rate_record. rewrite !dom_insert_L, dom_empty_L. set_solver.
Qed.

Lemma process_rate_copies_fields_witness :
  ∃ record : gmap string json,
    process_rate ["USD"; "EUR"] (KStr "01.01.2024")
      {[ KStr "01.01.2024" := empty_rates ["USD"; "EUR"] ]} (JObj bare_usd_fields)
    = inr (<[KStr "01.01.2024" := <["USD" := record]> (empty_rates ["USD"; "EUR"])]>
             {[ KStr "01.01.2024" := empty_rates ["USD"; "EUR"] ]}) ∧
    record !! "sale" = Some (default JNull (bare_usd_fields !! "saleRateNB")) ∧
    record !! "purchase" = Some (default JNull (bare_usd_fields !! "purchaseRateNB")) ∧
    dom record = {[ "sale"; "purchase" ]}.
Proof.
  apply (process_rate_copies_fields ["USD"; "EUR"] (KStr "01.01.2024")
           {[ KStr "01.01.2024" := empty_rates ["USD"; "EUR"] ]}
           (empty_rates ["USD"; "EUR"]) bare_usd_fields "USD").
  - reflexivity.
  - reflexivity.
  - constructor.
Defined.

(** C2, counterexample to the claim as written: for an entry that has no
    [saleRateNB] and no [purchaseRateNB], the output record is not empty;
    both keys are present and hold [None]. *)
Lemma missing_rate_fields_are_null_not_absent :
  ∃ rates record,
    process_exchange_rates payload_bare ["USD"]
    = inr {[ KStr "01.01.2024" := rates ]} ∧
    rates !! "USD" = Some record ∧
    bare_usd_fields !! "saleRateNB" = None ∧
    bare_usd_fields !! "purchaseRateNB" = None ∧
    record !! "sale" = Some JNull ∧
    record !! "purchase" = Some JNull ∧
    record !! "sale" ≠ None ∧
    record !! "purchase" ≠ None.
Proof.
  exists (<["USD" := rate_record bare_usd_fields]> ∅), (rate_record bare_usd_fields).
  repeat split; try reflexivity; discriminate.
Qed.

(** C4: whenever the processor returns a table, the table has one date key,
    and the keys of its currency mapping are exactly the requested
    currencies: each requested code is a key, mapped to the empty record when
    no entry of the payload carries it, and no other code is a key. *)
Theorem process_keys_exactly_requested data currencies table :
  process_exchange_rates data currencies = inr table →
  ∃ key rates,
    table = {[ key := rates ]} ∧
    dom rates = list_to_set currencies ∧
    ∀ c, c ∈ currencies →
         Forall (λ entry, entry_currency entry ≠ Some c) (payload_entries data) →
         rates !! c = Some ∅.
Proof.
  intros (fields & key & -> & Hkey & Hrec & ->)%process_returns.
  eexists key, _. split; [reflexivity|]. split.
  - rewrite dom_fold_entries; rewrite dom_empty_rates; done.
  - intros c Hc Hnone. rewrite lookup_fold_entries_ne by done.
    by apply lookup_empty_rates.
Qed.

Lemma process_keys_exactly_requested_witness :
  process_exchange_rates payload_2024 ["USD"; "EUR"] = inr table_2024 ∧
  ∃ key rates,
    table_2024 = {[ key := rates ]} ∧
    dom rates = list_to_set ["USD"; "EUR"] ∧
    ∀ c, c ∈ ["USD"; "EUR"] →
         Forall (λ entry, entry_currency entry ≠ Some c)
                (payload_entries payload_2024) →
         rates !! c = Some ∅.
Proof.
  split; [reflexivity|].
  apply (process_keys_exactly_requested payload_2024 ["USD"; "EUR"] table_2024).
  reflexivity.
Defined.

(** C5, counterexample to the claim as written: an entry that is not a
    record makes the processor raise [AttributeError], and an [exchangeRate]
    that is a number makes it raise [TypeError]. *)
Lemma process_raises_on_malformed :
  process_exchange_rates payload_bad_entry ["USD"] = inl AttributeError ∧
  process_exchange_rates payload_bad_sequence ["USD"] = inl TypeError.
Proof. split; reflexivity. Qed.

(** C8: on the payload of 01.01.2024 with a USD and an XYZ entry and the
    requested currencies USD and EUR, the processor returns exactly
    [{"01.01.2024": {"USD": {"sale": 38.5, "purchase": 38.0}, "EUR": {}}}]. *)
Theorem process_round_trip_2024 :
  process_exchange_rates payload_2024 ["USD"; "EUR"] = inr table_2024.
Proof. reflexivity. Qed.

(** C9: on a well-shaped payload without a date field the processor returns
    a table whose only key is [None]. The currency mapping under that key has
    exactly the requested currencies as keys, and each of them is mapped to
    its record: the empty record when no entry names the currency, and
    otherwise the record built from the last entry that names it. *)
Theorem process_without_date fields currencies :
  fields !! "date" = None →
  well_shaped (JObj fields) = true →
  ∃ rates,
    process_exchange_rates (JObj fields) currencies = inr {[ KNone := rates ]} ∧
    dom ({[ KNone := rates ]} : DailyRateTable) = {[ KNone ]} ∧
    dom rates = list_to_set currencies ∧
    (∀ c, c ∈ currencies →
          Forall (λ entry, entry_currency entry ≠ Some c)
                 (payload_entries (JObj fields)) →
          rates !! c = Some ∅) ∧
    (∀ c before entry_fields after,
       c ∈ currencies →
       payload_entries (JObj fields) = before ++ JObj entry_fields :: after →
       entry_currency (JObj entry_fields) = Some c →
       Forall (λ entry, entry_currency entry ≠ Some c) after →
       rates !! c
       = Some (<["purchase" := default JNull (entry_fields !! "purchaseRateNB")]>
                 (<["sale" := default JNull (entry_fields !! "saleRateNB")]> ∅))).
Proof.
  intros Hdate Hshape.
  destruct (process_well_shaped _ currencies Hshape)
    as (fields' & key & [= <-] & Hkey & Hrun).
  rewrite Hdate in Hkey. injection Hkey as <-.
  eexists. split; [exact Hrun|]. split; [by rewrite dom_singleton_L|].
  split; [rewrite dom_fold_entries; rewrite dom_empty_rates; done|]. split.
  - intros c Hc Hnone. rewrite lookup_fold_entries_ne by done.
    by apply lookup_empty_rates.
  - intros c before entry_fields after Hc -> Hcur Hafter.
    by apply lookup_fold_entries_last.
Qed.

Lemma process_without_date_witness :
  payload_no_date_fields !! "date" = None ∧
  well_shaped (JObj payload_no_date_fields) = true ∧
  ∃ rates,
    process_exchange_rates (JObj payload_no_date_fields) ["USD"; "EUR"]
    = inr {[ KNone := rates ]} ∧
    dom ({[ KNone := rates ]} : DailyRateTable) = {[ KNone ]} ∧
    dom rates = list_to_set ["USD"; "EUR"] ∧
    (∀ c, c ∈ ["USD"; "EUR"] →
          Forall (λ entry, entry_currency entry ≠ Some c)
                 (payload_entries (JObj payload_no_date_fields)) →
          rates !! c = Some ∅) ∧
    (∀ c before entry_fields after,
       c ∈ ["USD"; "EUR"] →
       payload_entries (JObj payload_no_date_fields)
       = before ++ JObj entry_fields :: after →
       entry_currency (JObj entry_fields) = Some c →
       Forall (λ entry, entry_currency entry ≠ Some c) after →
       rates !! c
       = Some (<["purchase" := default JNull (entry_fields !! "purchaseRateNB")]>
                 (<["sale" := default JNull (entry_fields !! "saleRateNB")]> ∅))).
Proof.
  split; [reflexivity|]. split; [reflexivity|].
  apply (process_without_date payload_no_date_fields ["USD"; "EUR"]);
    reflexivity.
Defined.

(** C10: when several entries carry the same requested currency, the record
    of that currency in the output is the one built from the last of them. *)
Theorem last_entry_wins data currencies before fields after c :
  well_shaped data = true →
  payload_entries data = before ++ JObj fields :: after →
  entry_currency (JObj fields) = Some c →
  c ∈ currencies →
  Forall (λ entry, entry_currency entry ≠ Some c) after →
  ∃ key rates,
    process_exchange_rates data currencies = inr {[ key := rates ]} ∧
    rates !! c = Some (<["purchase" := default JNull (fields !! "purchaseRateNB")]>
                        (<["sale" := default JNull (fields !! "saleRateNB")]> ∅)).
Proof.
  intros Hshape Hentries Hcur Hc Hafter.
  destruct (process_well_shaped _ currencies Hshape)
    as (fields' & key & -> & Hkey & Hrun).
  eexists key, _. split; [exact Hrun|].
  rewrite Hentries. by apply lookup_fold_entries_last.
Qed.

Lemma last_entry_wins_witness :
  well_shaped payload_twice = true ∧
  payload_entries payload_twice = [usd_entry] ++ JObj late_usd_fields :: [] ∧
  entry_currency (JObj late_usd_fields) = Some "USD" ∧
  "USD" ∈ ["USD"; "EUR"] ∧
  Forall (λ entry, entry_currency entry ≠ Some "USD") [] ∧
  ∃ key rates,
    process_exchange_rates payload_twice ["USD"; "EUR"] = inr {[ key := rates ]} ∧
    rates !! "USD" = Some (<["purchase" := JNum f1_0]> (<["sale" := JNum f1_0]> ∅)).
Proof.
  split; [reflexivity|]. split; [reflexivity|]. split; [reflexivity|].
  split; [constructor|]. split; [constructor|].
  apply (last_entry_wins payload_twice ["USD"; "EUR"] [usd_entry]
           late_usd_fields [] "USD");
    [reflexivity | reflexivity | reflexivity | constructor | constructor].
Defined.

(** ** The orchestrator: lemmas *)

Lemma forM_dispatch (w : World) (indices : list nat) (tr : list event) :
  forM (λ i, let date := date_back w i in
             _ ← emit (EvFetch date);
             mret (fetch_exchange_rate (http_get w i) date)) indices tr
  = (inr ((λ i, fetch_exchange_rate (http_get w i) (date_back w i)) <$> indices),
     tr ++ (EvFetch <$> (date_back w <$> indices))).
Proof.
  revert tr. induction indices as [|i indices IH]; intros tr; simpl.
  - unfold mret, M_ret. by rewrite app_nil_r.
  - unfold mbind, M_bind, emit, mret, M_ret in *. simpl.
    rewrite IH. by rewrite <- app_assoc.
Qed.

Lemma dispatch_run w days tr :
  dispatch w days tr
  = (inr (tasks_of w (Z.to_nat days)), tr ++ (EvFetch <$> dates_of w (Z.to_nat days))).
Proof. apply forM_dispatch. Qed.




Lemma first_failure_in finish tasks : ∀ i t e,
  first_failure finish i tasks = Some (t, e) → inl e ∈ tasks.
Proof.
  induction tasks as [|task tasks IH]; intros i t e Hff; [discriminate Hff|].
  simpl in Hff. destruct task as [e0|v].
  - destruct (first_failure finish (S i) tasks) as [[t1 e1]|] eqn:Hlater.
    + destruct (Nat.ltb t1 (finish i)).
      * injection Hff as <- <-. right. by eapply IH.
      * injection Hff as <- <-. by left.
    + injection Hff as <- <-. by left.
  - right. by eapply IH.
Qed.

Lemma first_failure_is_some finish tasks : ∀ i e,
  inl e ∈ tasks → is_Some (first_failure finish i tasks).
Proof.
  induction tasks as [|task tasks IH]; intros i e Hin.
  - by apply elem_of_nil in Hin.
  - simpl. destruct task as [e0|v].
    + destruct (first_failure finish (S i) tasks) as [[t1 e1]|]; [|by eexists].
      destruct (Nat.ltb t1 (finish i)); by eexists.
    + apply elem_of_cons in Hin as [Heq|Hin]; [discriminate Heq|]. by eapply IH.
Qed.

(** If a task fails, [gather] raises the exception of one of the failing
    tasks. *)
Lemma gather_failure finish tasks e :
  inl e ∈ tasks → ∃ e', gather finish tasks = inl e' ∧ inl e' ∈ tasks.
Proof.
  intros Hin. unfold gather.
  destruct (first_failure_is_some finish tasks 0%nat e Hin) as [[t e'] Hff].
  rewrite Hff. exists e'. split; [done|]. by eapply first_failure_in.
Qed.

(** The fetcher raises nothing but [ConnectionError]: the [ValueError] of
    the non-200 branch is caught by the handler of the same [try]. *)
Lemma fetch_raises_ConnectionError session_get date e :
  fetch_exchange_rate session_get date = inl e → ∃ msg, e = ConnectionError msg.
Proof.
  unfold fetch_exchange_rate.
  destruct (fetch_try session_get (API_URL date)); intros [= <-]. eauto.
Qed.

Lemma fetch_non_200 session_get date status body :
  session_get (API_URL date) = HttpResponse status body →
  status ≠ 200 →
  fetch_exchange_rate session_get date
  = inl (ConnectionError ("Не вдалося отримати дані з API: "
                          +:+ ("Помилка отримання даних: " +:+ pretty status))).
Proof.
  intros Hget Hstatus. unfold fetch_exchange_rate, fetch_try. rewrite Hget.
  destruct (Z.eqb_spec status 200); [done|]. reflexivity.
Qed.









Lemma days_in_range days :
  1 ≤ days ≤ 10 → (days <? 1) || (days >? 10) = false.
Proof. intros Hdays. apply orb_false_iff. split; lia. Qed.



(** A failing request makes the whole call raise [ConnectionError], with no
    result. *)
Lemma batch_failure_is_ConnectionError w days currencies tr e :
  1 ≤ days ≤ 10 →
  inl e ∈ tasks_of w (Z.to_nat days) →
  ∃ msg, (get_exchange_rates w days currencies tr).1 = inl (ConnectionError msg).
Proof.
  intros Hdays Hin. unfold get_exchange_rates. rewrite days_in_range by done.
  unfold mbind at 1. unfold M_bind at 1. unfold with_session.
  unfold mbind at 1. unfold M_bind at 1. rewrite dispatch_run. unfold lift.
  destruct (gather_failure (finish_time w) _ _ Hin) as (e' & -> & Hin').
  simpl. unfold tasks_of in Hin'.
  apply list_elem_of_fmap in Hin' as (i & Hfetch & _).
  symmetry in Hfetch. apply fetch_raises_ConnectionError in Hfetch as [msg ->].
  eauto.
Qed.

(** The parts of a trace made of one kind of event. *)
Lemma fetched_fetches dates : fetched (EvFetch <$> dates) = dates.
Proof. unfold fetched. induction dates; simpl; [done|by f_equal]. Qed.

Lemma processed_fetches dates : processed (EvFetch <$> dates) = [].
Proof. unfold processed. induction dates; simpl; done. Qed.

Lemma warnings_fetches dates : warnings (EvFetch <$> dates) = [].
Proof. unfold warnings. induction dates; simpl; done. Qed.

Lemma processed_processes payloads : processed (EvProcess <$> payloads) = payloads.
Proof. unfold processed. induction payloads; simpl; [done|by f_equal]. Qed.

Lemma warnings_processes payloads : warnings (EvProcess <$> payloads) = [].
Proof. unfold warnings. induction payloads; simpl; done. Qed.

Lemma processed_warnings dates : processed (EvWarning <$> dates) = [].
Proof. unfold processed. induction dates; simpl; done. Qed.

Lemma warnings_warnings dates : warnings (EvWarning <$> dates) = dates.
Proof. unfold warnings. induction dates; simpl; [done|by f_equal]. Qed.



(** ** The orchestrator: claims *)

(** C1, the code at a failing input: of three concurrent requests the second
    meets HTTP 503. The call raises, with no result, but what it raises is a
    [ConnectionError], the kind used for transport failures, whose text
    quotes the status; the [ValueError] raised for the status never leaves
    the fetcher. *)
Theorem batch_with_503_raises_ConnectionError :
  get_exchange_rates world_503 3 ["EUR"; "USD"] []
  = (inl (ConnectionError
            "Не вдалося отримати дані з API: Помилка отримання даних: 503"),
     [EvSessionOpen; EvFetch "01.01.2024"; EvFetch "31.12.2023";
      EvFetch "30.12.2023"; EvSessionClose]).
Proof. vm_compute. reflexivity. Qed.

(** C3: for [days] below 1 or above 10 the call raises the validation
    [ValueError] and adds nothing to the trace: no session is opened and the
    fetcher is not called. *)
Theorem out_of_range_days_rejected w days currencies tr :
  days < 1 ∨ 10 < days →
  get_exchange_rates w days currencies tr
  = (inl (ValueError "Кількість днів повинна бути від 1 до 10."), tr).
Proof.
  intros Hdays. unfold get_exchange_rates.
  assert ((days <? 1) || (days >? 10) = true) as ->; [|reflexivity].
  apply orb_true_iff. destruct Hdays; [left|right]; lia.
Qed.

Lemma out_of_range_days_rejected_witness :
  (0 < 1 ∨ 10 < 0) ∧
  get_exchange_rates world_ok 0 ["EUR"; "USD"] []
  = (inl (ValueError "Кількість днів повинна бути від 1 до 10."), []) ∧
  (11 < 1 ∨ 10 < 11) ∧
  get_exchange_rates world_ok 11 ["EUR"; "USD"] []
  = (inl (ValueError "Кількість днів повинна бути від 1 до 10."), []).
Proof.
  split; [left; reflexivity|]. split.
  { apply (out_of_range_days_rejected world_ok 0 ["EUR"; "USD"] []).
    left; reflexivity. }
  split; [right; reflexivity|].
  apply (out_of_range_days_rejected world_ok 11 ["EUR"; "USD"] []).
  right; reflexivity.
Defined.





(** * Further properties *)

(** ** The fetcher *)

(** X1: the fetcher returns a payload exactly when the request for the URL
    of the date is answered with status 200 and a decodable body, and the
    payload is that body. *)
Theorem fetch_returns_iff session_get date value :
  fetch_exchange_rate session_get date = inr value
  ↔ session_get (API_URL date) = HttpResponse 200 (inr value).
Proof.
  unfold fetch_exchange_rate, fetch_try. split.
  - destruct (session_get (API_URL date)) as [cause|status body];
      [discriminate|].
    destruct (Z.eqb_spec status 200) as [->|Hne]; [|discriminate].
    destruct body as [cause|v]; [discriminate|]. by intros [= ->].
  - by intros ->.
Qed.

(** X2: whatever goes wrong with a request (no connection, a status other
    than 200, a body that does not decode), the fetcher raises a
    [ConnectionError] whose text starts with the same fixed words. *)
Theorem fetch_failure_is_wrapped session_get date e :
  fetch_exchange_rate session_get date = inl e →
  ∃ detail, e = ConnectionError ("Не вдалося отримати дані з API: " +:+ detail).
Proof.
  unfold fetch_exchange_rate.
  destruct (fetch_try session_get (API_URL date)) as [e'|v]; intros [= <-].
  by exists (exn_str e').
Qed.

Lemma fetch_failure_is_wrapped_witness :
  fetch_exchange_rate (λ _, TransportFailure "timeout") "01.01.2024"
  = inl (ConnectionError "Не вдалося отримати дані з API: timeout") ∧
  ∃ detail, ConnectionError "Не вдалося отримати дані з API: timeout"
            = ConnectionError ("Не вдалося отримати дані з API: " +:+ detail).
Proof.
  split; [reflexivity|].
  apply (fetch_failure_is_wrapped (λ _, TransportFailure "timeout") "01.01.2024").
  reflexivity.
Defined.

(** ** The processor *)

Lemma chars_records s :
  forallb is_record (chars s) = String.eqb s "".
Proof. by destruct s. Qed.

Lemma keys_records (fields : gmap string json) :
  forallb is_record (JStr <$> (map_to_list fields).*1)
  = bool_decide (fields = ∅).
Proof.
  destruct (map_to_list fields) as [|[k v] rest] eqn:Hlist.
  - apply map_to_list_empty_iff in Hlist as ->. by rewrite bool_decide_true.
  - simpl. symmetry. apply bool_decide_eq_false. intros ->.
    by rewrite map_to_list_empty in Hlist.
Qed.

Lemma iter_records value :
  iterable_of_records value = true
  ↔ ∃ rates, py_iter value = inr rates ∧ forallb is_record rates = true.
Proof.
  split.
  - destruct value as [| | |s|entries|fields]; simpl; try discriminate;
      intros Hrec; eexists; (split; [reflexivity|]).
    + by rewrite chars_records.
    + done.
    + by rewrite keys_records.
  - intros (rates & Hiter & Hrec).
    destruct value as [| | |s|entries|fields]; simpl in *; try discriminate;
      injection Hiter as <-.
    + by rewrite chars_records in Hrec.
    + done.
    + by rewrite keys_records in Hrec.
Qed.

Lemma hashable_hash value :
  hashable value = true ↔ ∃ key, py_hash value = inr key.
Proof.
  split.
  - destruct value; simpl; try discriminate; eauto.
  - intros [key Hkey]. by destruct value.
Qed.

(** X3: the processor returns a table exactly for the payloads that are a
    record whose date is hashable and whose [exchangeRate] is a sequence of
    records (or has nothing to iterate); the requested currencies play no
    part in this, so an entry that is not a record makes it raise even when
    no currency is requested. *)
Theorem process_returns_iff_processable data currencies :
  (∃ table, process_exchange_rates data currencies = inr table)
  ↔ processable data = true.
Proof.
  unfold process_exchange_rates, processable. split.
  - intros [table Hrun]. destruct data as [| | | | |fields];
      try discriminate Hrun. simpl in Hrun.
    destruct (py_hash (default JNull (fields !! "date"))) as [e|key] eqn:Hkey;
      [discriminate Hrun|]. simpl in Hrun.
    destruct (py_iter (default (JArr []) (fields !! "exchangeRate")))
      as [e|rates] eqn:Hiter; [discriminate Hrun|]. simpl in Hrun.
    apply andb_true_iff. split.
    + apply hashable_hash. eauto.
    + apply iter_records. exists rates. split; [done|].
      by eapply fold_returns_records.
  - destruct data as [| | | | |fields]; try discriminate. simpl.
    intros [[key Hkey]%hashable_hash (rates & Hiter & Hrec)%iter_records]%andb_true_iff.
    rewrite Hkey, Hiter. simpl. rewrite fold_records by done. eauto.
Qed.

(** The table always has the date key while the loop runs, so the loop raises
    nothing but the [AttributeError] of an entry without [get]. *)
Lemma process_rate_keeps_key currencies key
    (table : gmap pykey (gmap string (gmap string json))) rate :
  is_Some (table !! key) →
  match process_rate currencies key table rate with
  | inl e => e = AttributeError
  | inr table' => is_Some (table' !! key)
  end.
Proof.
  intros [rates Hrates]. unfold process_rate.
  destruct rate as [| | | | |fields]; try reflexivity. simpl.
  destruct (py_in _ currencies); simpl; [|by eexists].
  destruct (default JNull (fields !! "currency")); try by eexists.
  unfold set_rate. rewrite Hrates. rewrite lookup_insert_eq. by eexists.
Qed.

Lemma fold_error_kind currencies key rates : ∀ table e,
  is_Some (table !! key) →
  foldE (process_rate currencies key) table rates = inl e →
  e = AttributeError.
Proof.
  induction rates as [|rate rates IH]; intros table e Hkey Hfold;
    [discriminate Hfold|].
  cbn [foldE] in Hfold.
  pose proof (process_rate_keeps_key currencies key table rate Hkey) as Hstep.
  destruct (process_rate currencies key table rate) as [e'|table'].
  - simpl in Hfold. by injection Hfold as <-.
  - simpl in Hfold. by eapply IH.
Qed.

Lemma process_error_kinds data currencies e :
  process_exchange_rates data currencies = inl e →
  e = AttributeError ∨ e = TypeError.
Proof.
  unfold process_exchange_rates. intros Hrun.
  destruct data as [| | | | |fields];
    try (injection Hrun as <-; by left). simpl in Hrun.
  destruct (py_hash (default JNull (fields !! "date"))) as [e'|key] eqn:Hkey.
  { injection Hrun as <-. right. revert Hkey.
    destruct (default JNull (fields !! "date")); simpl; congruence. }
  simpl in Hrun.
  destruct (py_iter (default (JArr []) (fields !! "exchangeRate")))
    as [e'|rates] eqn:Hiter.
  { injection Hrun as <-. right. revert Hiter.
    destruct (default (JArr []) (fields !! "exchangeRate")); simpl; congruence. }
  simpl in Hrun. left. eapply fold_error_kind; [|exact Hrun].
  rewrite lookup_singleton_eq. by eexists.
Qed.

(** X4: the processor raises nothing but [AttributeError] (a value without
    [get]) and [TypeError] (a date that cannot be a key, an [exchangeRate]
    that cannot be iterated); in particular the lookup
    [processed_data[date]] of the loop never raises [KeyError]. *)
Theorem process_raises_attribute_or_type_error data currencies e :
  process_exchange_rates data currencies = inl e →
  e = AttributeError ∨ e = TypeError.
Proof. apply process_error_kinds. Qed.

Lemma process_raises_attribute_or_type_error_witness :
  process_exchange_rates payload_bad_sequence ["USD"] = inl TypeError ∧
  (TypeError = AttributeError ∨ TypeError = TypeError).
Proof.
  split; [reflexivity|].
  apply (process_raises_attribute_or_type_error payload_bad_sequence ["USD"]).
  reflexivity.
Defined.

Lemma lookup_empty_rates_None currencies c :
  c ∉ currencies → empty_rates currencies !! c = None.
Proof.
  intros Hc. apply not_elem_of_dom. rewrite dom_empty_rates.
  by rewrite elem_of_list_to_set.
Qed.

Lemma empty_rates_same_set currencies1 currencies2 :
  (∀ c, c ∈ currencies1 ↔ c ∈ currencies2) →
  empty_rates currencies1 = empty_rates currencies2.
Proof.
  intros Hsame. apply map_eq. intros c.
  destruct (decide (c ∈ currencies1)) as [Hc|Hc].
  - rewrite !lookup_empty_rates; [done|by apply Hsame|done].
  - rewrite !lookup_empty_rates_None; [done| |done]. by rewrite <- Hsame.
Qed.

Lemma py_in_same_set currencies1 currencies2 value :
  (∀ c, c ∈ currencies1 ↔ c ∈ currencies2) →
  py_in value currencies1 = py_in value currencies2.
Proof.
  intros Hsame. destruct value; try reflexivity. simpl.
  apply bool_decide_ext, Hsame.
Qed.

Lemma process_rate_same_set currencies1 currencies2 key table rate :
  (∀ c, c ∈ currencies1 ↔ c ∈ currencies2) →
  process_rate currencies1 key table rate
  = process_rate currencies2 key table rate.
Proof.
  intros Hsame. unfold process_rate.
  destruct (py_get rate "currency" JNull) as [e|currency]; [reflexivity|].
  simpl. by rewrite (py_in_same_set currencies1 currencies2).
Qed.

Lemma foldE_same_set currencies1 currencies2 key rates : ∀ table,
  (∀ c, c ∈ currencies1 ↔ c ∈ currencies2) →
  foldE (process_rate currencies1 key) table rates
  = foldE (process_rate currencies2 key) table rates.
Proof.
  induction rates as [|rate rates IH]; intros table Hsame; [reflexivity|].
  cbn [foldE]. rewrite (process_rate_same_set currencies1 currencies2) by done.
  destruct (process_rate currencies2 key table rate); simpl; [done|].
  by apply IH.
Qed.

(** X5: the processor looks at the requested currencies as a set: two lists
    with the same members, in any order and with any repetitions, give the
    same outcome on every payload. *)
Theorem process_same_currency_set data currencies1 currencies2 :
  (∀ c, c ∈ currencies1 ↔ c ∈ currencies2) →
  process_exchange_rates data currencies1
  = process_exchange_rates data currencies2.
Proof.
  intros Hsame. unfold process_exchange_rates.
  destruct (py_get data "date" JNull) as [e|date]; [reflexivity|]. simpl.
  destruct (py_get data "exchangeRate" (JArr [])) as [e|rates_value];
    [reflexivity|]. simpl.
  destruct (py_hash date) as [e|key]; [reflexivity|]. simpl.
  destruct (py_iter rates_value) as [e|rates]; [reflexivity|]. simpl.
  rewrite (empty_rates_same_set currencies1 currencies2) by done.
  by apply foldE_same_set.
Qed.

Lemma process_same_currency_set_witness :
  (∀ c, c ∈ ["USD"; "EUR"] ↔ c ∈ ["EUR"; "USD"; "USD"]) ∧
  process_exchange_rates payload_2024 ["USD"; "EUR"]
  = process_exchange_rates payload_2024 ["EUR"; "USD"; "USD"].
Proof.
  assert (∀ c, c ∈ ["USD"; "EUR"] ↔ c ∈ ["EUR"; "USD"; "USD"]) as Hsame.
  { intros c. rewrite !elem_of_cons, !elem_of_nil. tauto. }
  split; [exact Hsame|].
  apply (process_same_currency_set payload_2024 ["USD"; "EUR"]
           ["EUR"; "USD"; "USD"] Hsame).
Defined.

Lemma apply_entry_unrequested currencies rates entry :
  requested currencies entry = false →
  apply_entry currencies rates entry = rates.
Proof.
  unfold requested, apply_entry. destruct entry; try reflexivity.
  destruct (entry_currency _) as [c|]; [|reflexivity]. by intros ->.
Qed.

Lemma fold_requested_only currencies entries : ∀ rates,
  foldl (apply_entry currencies) rates (List.filter (requested currencies) entries)
  = foldl (apply_entry currencies) rates entries.
Proof.
  induction entries as [|entry entries IH]; intros rates; [reflexivity|].
  cbn [List.filter foldl].
  destruct (requested currencies entry) eqn:Hreq.
  - cbn [foldl]. apply IH.
  - rewrite apply_entry_unrequested by done. apply IH.
Qed.

Lemma forallb_filter_records (keep : json → bool) entries :
  forallb is_record entries = true →
  forallb is_record (List.filter keep entries) = true.
Proof.
  induction entries as [|entry entries IH]; [done|]. simpl.
  intros [Hentry Hrest]%andb_true_iff.
  destruct (keep entry); simpl; [rewrite Hentry|]; by apply IH.
Qed.

(** X6: entries for currencies that are not requested, and entries whose
    currency is missing or not a string, have no effect: on a payload whose
    entries are records, dropping them from the sequence leaves the outcome
    unchanged. *)
Theorem process_ignores_other_entries fields entries currencies :
  fields !! "exchangeRate" = Some (JArr entries) →
  forallb is_record entries = true →
  process_exchange_rates
    (JObj (<["exchangeRate" := JArr (List.filter (requested currencies) entries)]>
             fields)) currencies
  = process_exchange_rates (JObj fields) currencies.
Proof.
  intros Hrates Hrec. unfold process_exchange_rates, py_get, mbind, exn_bind.
  rewrite lookup_insert_ne by discriminate.
  rewrite lookup_insert_eq, Hrates.
  destruct (py_hash (default JNull (fields !! "date"))) as [e|key];
    [reflexivity|].
  cbn [default from_option id py_iter].
  rewrite fold_records by by apply forallb_filter_records.
  rewrite fold_records by done. by rewrite fold_requested_only.
Qed.

Lemma process_ignores_other_entries_witness :
  (<["date" := JStr "01.01.2024"]>
     (<["exchangeRate" := JArr [usd_entry; xyz_entry]]> ∅) : gmap string json)
    !! "exchangeRate" = Some (JArr [usd_entry; xyz_entry]) ∧
  forallb is_record [usd_entry; xyz_entry] = true ∧
  List.filter (requested ["USD"; "EUR"]) [usd_entry; xyz_entry] = [usd_entry] ∧
  process_exchange_rates
    (JObj (<["exchangeRate" :=
               JArr (List.filter (requested ["USD"; "EUR"]) [usd_entry; xyz_entry])]>
             (<["date" := JStr "01.01.2024"]>
                (<["exchangeRate" := JArr [usd_entry; xyz_entry]]> ∅))))
    ["USD"; "EUR"]
  = process_exchange_rates payload_2024 ["USD"; "EUR"].
Proof.
  split; [reflexivity|]. split; [reflexivity|]. split; [reflexivity|].
  apply (process_ignores_other_entries
           (<["date" := JStr "01.01.2024"]>
              (<["exchangeRate" := JArr [usd_entry; xyz_entry]]> ∅))
           [usd_entry; xyz_entry] ["USD"; "EUR"]); reflexivity.
Defined.

Lemma empty_rates_shape currencies c record :
  empty_rates currencies !! c = Some record → record_shape record.
Proof.
  intros Hlookup. left.
  destruct (decide (c ∈ currencies)) as [Hc|Hc].
  - rewrite lookup_empty_rates in Hlookup by done. congruence.
  - by rewrite lookup_empty_rates_None in Hlookup.
Qed.

Lemma dom_rate_record fields : dom (rate_record fields) = {[ "sale"; "purchase" ]}.
Proof. unfold rate_record. rewrite !dom_insert_L, dom_empty_L. set_solver. Qed.

Lemma apply_entry_shape currencies rates entry :
  (∀ c record, rates !! c = Some record → record_shape record) →
  ∀ c record, apply_entry currencies rates entry !! c = Some record →
              record_shape record.
Proof.
  intros Hrates c record. unfold apply_entry.
  destruct entry as [| | | | |fields]; try apply Hrates.
  destruct (entry_currency _) as [c'|]; [|apply Hrates].
  case_bool_decide; [|apply Hrates].
  destruct (decide (c' = c)) as [->|Hne].
  - rewrite lookup_insert_eq. intros [= <-]. right. apply dom_rate_record.
  - rewrite lookup_insert_ne by done. apply Hrates.
Qed.

Lemma fold_entries_shape currencies entries : ∀ rates,
  (∀ c record, rates !! c = Some record → record_shape record) →
  ∀ c record, foldl (apply_entry currencies) rates entries !! c = Some record →
              record_shape record.
Proof.
  induction entries as [|entry entries IH]; intros rates Hrates; [done|].
  simpl. apply IH. by apply apply_entry_shape.
Qed.

(** X7: in every table the processor returns, the record of a currency is
    either empty (no entry named the currency) or has exactly the two keys
    [sale] and [purchase]; a record with one of them only never occurs. *)
Theorem process_records_empty_or_full data currencies
    (table : gmap pykey (gmap string (gmap string json))) key rates c record :
  process_exchange_rates data currencies = inr table →
  table !! key = Some rates →
  rates !! c = Some record →
  record = ∅ ∨ dom record = {[ "sale"; "purchase" ]}.
Proof.
  intros (fields & key' & -> & Hkey & Hrec & ->)%process_returns Htable Hrates.
  apply lookup_singleton_Some in Htable as [-> <-].
  eapply (fold_entries_shape currencies); [|exact Hrates].
  apply empty_rates_shape.
Qed.

Lemma process_records_empty_or_full_witness :
  process_exchange_rates payload_bare ["USD"; "EUR"]
  = inr {[ KStr "01.01.2024" :=
             <["USD" := rate_record bare_usd_fields]> (empty_rates ["USD"; "EUR"]) ]} ∧
  (rate_record bare_usd_fields = ∅ ∨
   dom (rate_record bare_usd_fields) = {[ "sale"; "purchase" ]}).
Proof.
  split; [reflexivity|].
  apply (process_records_empty_or_full payload_bare ["USD"; "EUR"]
           {[ KStr "01.01.2024" :=
                <["USD" := rate_record bare_usd_fields]> (empty_rates ["USD"; "EUR"]) ]}
           (KStr "01.01.2024")
           (<["USD" := rate_record bare_usd_fields]> (empty_rates ["USD"; "EUR"]))
           "USD" (rate_record bare_usd_fields)); reflexivity.
Defined.

(** X8: the single key of a returned table is the date found in the payload
    itself ([None] when the payload has no date): the processor never sees
    the date that was asked for, so a payload that carries another date is
    filed under that other date. *)
Theorem process_key_is_payload_date fields currencies
    (table : gmap pykey (gmap string (gmap string json))) :
  process_exchange_rates (JObj fields) currencies = inr table →
  ∃ key,
    py_hash (default JNull (fields !! "date")) = inr key ∧
    dom table = {[ key ]} ∧
    (∀ d, fields !! "date" = Some (JStr d) → key = KStr d).
Proof.
  intros (fields' & key & [= <-] & Hkey & _ & ->)%process_returns.
  exists key. split; [done|]. split; [by rewrite dom_singleton_L|].
  intros d Hd. rewrite Hd in Hkey. simpl in Hkey. congruence.
Qed.

Lemma process_key_is_payload_date_witness :
  process_exchange_rates
    (JObj (<["date" := JStr "01.01.2024"]>
             (<["exchangeRate" := JArr [usd_entry; xyz_entry]]> ∅)))
    ["USD"; "EUR"] = inr table_2024 ∧
  ∃ key,
    py_hash (default JNull
               ((<["date" := JStr "01.01.2024"]>
                   (<["exchangeRate" := JArr [usd_entry; xyz_entry]]> ∅)
                 : gmap string json) !! "date")) = inr key ∧
    dom table_2024 = {[ key ]} ∧
    (∀ d, (<["date" := JStr "01.01.2024"]>
             (<["exchangeRate" := JArr [usd_entry; xyz_entry]]> ∅)
           : gmap string json) !! "date" = Some (JStr d) → key = KStr d).
Proof.
  split; [reflexivity|].
  apply (process_key_is_payload_date
           (<["date" := JStr "01.01.2024"]>
              (<["exchangeRate" := JArr [usd_entry; xyz_entry]]> ∅))
           ["USD"; "EUR"] table_2024).
  reflexivity.
Defined.

(** ** The processor: missing fields and fields of a wrong type *)

Lemma fold_no_currency currencies entries : ∀ rates,
  Forall (λ entry, entry_currency entry = None) entries →
  foldl (apply_entry currencies) rates entries = rates.
Proof.
  induction entries as [|entry entries IH]; intros rates Hall; [reflexivity|].
  apply Forall_cons in Hall as [Hentry Hrest]. simpl. rewrite IH by done.
  unfold apply_entry. destruct entry; try reflexivity. by rewrite Hentry.
Qed.

Lemma fold_raises_on_non_record currencies key entries
    (table : gmap pykey (gmap string (gmap string json))) :
  is_Some (table !! key) →
  forallb is_record entries = false →
  foldE (process_rate currencies key) table entries = inl AttributeError.
Proof.
  intros Hkey Hrec.
  destruct (foldE (process_rate currencies key) table entries) as [e|table']
    eqn:Hfold.
  - f_equal. by eapply fold_error_kind.
  - apply fold_returns_records in Hfold. congruence.
Qed.

Lemma returns_iff_processable data currencies :
  (∃ table, process_exchange_rates data currencies = inr table)
  ↔ processable data = true.
Proof.
  unfold process_exchange_rates, processable. split.
  - intros [table Hrun]. destruct data as [| | | | |fields];
      try discriminate Hrun. simpl in Hrun.
    destruct (py_hash (default JNull (fields !! "date"))) as [e|key] eqn:Hkey;
      [discriminate Hrun|]. simpl in Hrun.
    destruct (py_iter (default (JArr []) (fields !! "exchangeRate")))
      as [e|rates] eqn:Hiter; [discriminate Hrun|]. simpl in Hrun.
    apply andb_true_iff. split.
    + apply hashable_hash. eauto.
    + apply iter_records. exists rates. split; [done|].
      by eapply fold_returns_records.
  - destruct data as [| | | | |fields]; try discriminate. simpl.
    intros [[key Hkey]%hashable_hash (rates & Hiter & Hrec)%iter_records]%andb_true_iff.
    rewrite Hkey, Hiter. simpl. rewrite fold_records by done. eauto.
Qed.

(** C5 (as amended): missing fields do not make the processor fail, fields of
    a wrong type do.

    On every payload that is a record whose date is missing or a scalar and
    whose [exchangeRate] is missing or a sequence of records, the processor
    returns a table [{key: rates}] whose currency mapping has exactly the
    requested currencies as keys. A missing date gives the key [None]; a
    currency that no entry names (so every currency when [exchangeRate] is
    missing, and entries without a currency count for nothing) keeps the
    empty record; an entry's missing [saleRateNB] or [purchaseRateNB] is
    stored as [None] in the record written from it.

    A payload that is not a record raises [AttributeError]; a date that is a
    list or a record raises [TypeError]; with a hashable date, a sequence
    that holds an entry that is not a record raises [AttributeError], and an
    [exchangeRate] that is [None], a boolean or a number raises [TypeError].
    The processor returns exactly on the payloads that are a record with a
    hashable date whose [exchangeRate] is missing, a sequence of records, or
    a string or record with nothing to iterate. *)
Theorem process_degrades_missing_raises_malformed data currencies :
  (well_shaped data = true →
   ∃ fields key rates,
     data = JObj fields ∧
     py_hash (default JNull (fields !! "date")) = inr key ∧
     process_exchange_rates data currencies = inr {[ key := rates ]} ∧
     dom rates = list_to_set currencies ∧
     (fields !! "date" = None → key = KNone) ∧
     (fields !! "exchangeRate" = None → rates = empty_rates currencies) ∧
     (∀ c, c ∈ currencies →
           Forall (λ entry, entry_currency entry ≠ Some c) (payload_entries data) →
           rates !! c = Some ∅) ∧
     (∀ c before entry_fields after,
        c ∈ currencies →
        payload_entries data = before ++ JObj entry_fields :: after →
        entry_currency (JObj entry_fields) = Some c →
        Forall (λ entry, entry_currency entry ≠ Some c) after →
        ∃ record : gmap string json,
          rates !! c = Some record ∧
          dom record = {[ "sale"; "purchase" ]} ∧
          record !! "sale" = Some (default JNull (entry_fields !! "saleRateNB")) ∧
          record !! "purchase"
          = Some (default JNull (entry_fields !! "purchaseRateNB")) ∧
          (entry_fields !! "saleRateNB" = None → record !! "sale" = Some JNull) ∧
          (entry_fields !! "purchaseRateNB" = None →
           record !! "purchase" = Some JNull))) ∧
  (is_record data = false →
   process_exchange_rates data currencies = inl AttributeError) ∧
  (∀ fields, data = JObj fields →
     (hashable (default JNull (fields !! "date")) = false →
      process_exchange_rates data currencies = inl TypeError) ∧
     (hashable (default JNull (fields !! "date")) = true →
      (∀ entries, fields !! "exchangeRate" = Some (JArr entries) →
                  forallb is_record entries = false →
                  process_exchange_rates data currencies = inl AttributeError) ∧
      (∀ value, fields !! "exchangeRate" = Some value →
                match value with
                | JNull | JBool _ | JNum _ => True
                | JStr _ | JArr _ | JObj _ => False
                end →
                process_exchange_rates data currencies = inl TypeError))) ∧
  ((∃ table, process_exchange_rates data currencies = inr table)
   ↔ processable data = true).
Proof.
  split; [|split; [|split]].
  - intros Hshape.
    destruct (process_well_shaped _ currencies Hshape)
      as (fields & key & -> & Hkey & Hrun).
    eexists fields, key, _. split; [reflexivity|]. split; [exact Hkey|].
    split; [exact Hrun|].
    split; [rewrite dom_fold_entries; rewrite dom_empty_rates; done|].
    split; [|split; [|split]].
    + intros Hdate. rewrite Hdate in Hkey. simpl in Hkey. congruence.
    + intros Hrates. simpl. by rewrite Hrates.
    + intros c Hc Hnone. rewrite lookup_fold_entries_ne by done.
      by apply lookup_empty_rates.
    + intros c before entry_fields after Hc -> Hcur Hafter.
      exists (rate_record entry_fields).
      split; [by apply lookup_fold_entries_last|].
      split; [apply dom_rate_record|]. unfold rate_record.
      split; [by rewrite lookup_insert_ne, lookup_insert_eq|].
      split; [by rewrite lookup_insert_eq|]. split.
      * intros ->. by rewrite lookup_insert_ne, lookup_insert_eq.
      * intros ->. by rewrite lookup_insert_eq.
  - by destruct data.
  - intros fields ->. unfold process_exchange_rates. simpl. split.
    + intros Hdate.
      destruct (default JNull (fields !! "date")); try discriminate Hdate;
        reflexivity.
    + intros [key Hkey]%hashable_hash. rewrite Hkey. simpl. split.
      * intros entries -> Hrec. simpl.
        apply fold_raises_on_non_record; [|done].
        rewrite lookup_singleton_eq. by eexists.
      * intros value -> Hvalue. by destruct value.
  - apply returns_iff_processable.
Qed.

Lemma process_degrades_missing_raises_malformed_witness :
  well_shaped payload_bare = true ∧
  (∃ fields key rates,
     payload_bare = JObj fields ∧
     py_hash (default JNull (fields !! "date")) = inr key ∧
     process_exchange_rates payload_bare ["USD"; "EUR"] = inr {[ key := rates ]} ∧
     dom rates = list_to_set ["USD"; "EUR"] ∧
     (fields !! "date" = None → key = KNone) ∧
     (fields !! "exchangeRate" = None → rates = empty_rates ["USD"; "EUR"]) ∧
     (∀ c, c ∈ ["USD"; "EUR"] →
           Forall (λ entry, entry_currency entry ≠ Some c)
                  (payload_entries payload_bare) →
           rates !! c = Some ∅) ∧
     (∀ c before entry_fields after,
        c ∈ ["USD"; "EUR"] →
        payload_entries payload_bare = before ++ JObj entry_fields :: after →
        entry_currency (JObj entry_fields) = Some c →
        Forall (λ entry, entry_currency entry ≠ Some c) after →
        ∃ record : gmap string json,
          rates !! c = Some record ∧
          dom record = {[ "sale"; "purchase" ]} ∧
          record !! "sale" = Some (default JNull (entry_fields !! "saleRateNB")) ∧
          record !! "purchase"
          = Some (default JNull (entry_fields !! "purchaseRateNB")) ∧
          (entry_fields !! "saleRateNB" = None → record !! "sale" = Some JNull) ∧
          (entry_fields !! "purchaseRateNB" = None →
           record !! "purchase" = Some JNull))) ∧
  is_record (JArr [usd_entry]) = false ∧
  process_exchange_rates (JArr [usd_entry]) ["USD"; "EUR"] = inl AttributeError ∧
  forallb is_record [JNum (PInt 1)] = false ∧
  process_exchange_rates payload_bad_entry ["USD"; "EUR"] = inl AttributeError ∧
  process_exchange_rates payload_bad_sequence ["USD"; "EUR"] = inl TypeError ∧
  processable payload_bare = true ∧
  ∃ table, process_exchange_rates payload_bare ["USD"; "EUR"] = inr table.
Proof.
  pose proof (process_degrades_missing_raises_malformed payload_bare
                ["USD"; "EUR"]) as (Hreturns & _ & _ & Hiff).
  pose proof (process_degrades_missing_raises_malformed (JArr [usd_entry])
                ["USD"; "EUR"]) as (_ & Hnot_record & _).
  pose proof (process_degrades_missing_raises_malformed payload_bad_entry
                ["USD"; "EUR"]) as (_ & _ & Hentry & _).
  pose proof (process_degrades_missing_raises_malformed payload_bad_sequence
                ["USD"; "EUR"]) as (_ & _ & Hsequence & _).
  split; [reflexivity|].
  split; [exact (Hreturns eq_refl)|].
  split; [reflexivity|]. split; [exact (Hnot_record eq_refl)|].
  split; [reflexivity|]. split.
  { destruct (Hentry _ eq_refl) as [_ Hhashable].
    destruct (Hhashable eq_refl) as [Hentries _].
    exact (Hentries [JNum (PInt 1)] eq_refl eq_refl). }
  split.
  { destruct (Hsequence _ eq_refl) as [_ Hhashable].
    destruct (Hhashable eq_refl) as [_ Hvalue].
    exact (Hvalue (JNum (PInt 5)) eq_refl I). }
  split; [reflexivity|].
  apply Hiff. reflexivity.
Defined.

(** ** The orchestrator *)

Lemma has_rates_error data e : has_rates data = inl e → e = AttributeError.
Proof.
  unfold has_rates. destruct (truthy data); [|discriminate].
  destruct data; simpl; intros [= <-]; reflexivity.
Qed.

(** Where the condition of the comprehension has a value, so have the
    condition and the date of the warning loop. *)
Lemma no_rates_of_has_rates data keep :
  has_rates data = inr keep →
  no_rates data = inr (negb keep) ∧ ∃ date, warning_date data = inr date.
Proof.
  unfold has_rates, no_rates, warning_date.
  destruct (truthy data); simpl.
  - destruct data; simpl; try discriminate. intros [= <-]. eauto.
  - intros [= <-]. eauto.
Qed.

Lemma process_all_cons currencies data raw_data tr :
  process_all currencies (data :: raw_data) tr
  = match has_rates data with
    | inl e => (inl e, tr)
    | inr false => process_all currencies raw_data tr
    | inr true =>
        match process_exchange_rates data currencies with
        | inl e => (inl e, tr ++ [EvProcess data])
        | inr table =>
            match process_all currencies raw_data (tr ++ [EvProcess data]) with
            | (inl e, tr') => (inl e, tr')
            | (inr tables, tr') => (inr (table :: tables), tr')
            end
        end
    end.
Proof.
  cbn [process_all]. unfold mbind, M_bind, lift, emit, mret, M_ret.
  destruct (has_rates data) as [e|[|]]; try reflexivity;
    try (destruct (process_exchange_rates data currencies); reflexivity).
Qed.

Lemma warn_all_cons data raw_data tr :
  warn_all (data :: raw_data) tr
  = match no_rates data with
    | inl e => (inl e, tr)
    | inr false => warn_all raw_data tr
    | inr true =>
        match warning_date data with
        | inl e => (inl e, tr)
        | inr date => warn_all raw_data (tr ++ [EvWarning date])
        end
    end.
Proof.
  cbn [warn_all]. unfold mbind, M_bind, lift, emit, mret, M_ret.
  destruct (no_rates data) as [e|[|]]; try reflexivity;
    try (destruct (warning_date data); reflexivity).
Qed.

Lemma process_all_cases currencies raw_data : ∀ tr,
  (∃ e payloads,
     process_all currencies raw_data tr = (inl e, tr ++ (EvProcess <$> payloads)) ∧
     (e = AttributeError ∨ e = TypeError)) ∨
  (∃ tables,
     process_all currencies raw_data tr
     = (inr tables, tr ++ (EvProcess <$> List.filter kept raw_data)) ∧
     Forall2 (λ data table, process_exchange_rates data currencies = inr table)
             (List.filter kept raw_data) tables ∧
     Forall (λ data, ∃ keep, has_rates data = inr keep) raw_data).
Proof.
  induction raw_data as [|data raw_data IH]; intros tr.
  - right. exists []. simpl. unfold mret, M_ret. rewrite app_nil_r.
    by repeat split.
  - rewrite process_all_cons. cbn [List.filter].
    destruct (has_rates data) as [e|keep] eqn:Hhas.
    { left. exists e, []. rewrite app_nil_r. split; [done|].
      left. by eapply has_rates_error. }
    assert (kept data = keep) as -> by (unfold kept; by rewrite Hhas).
    destruct keep.
    + destruct (process_exchange_rates data currencies) as [e|table] eqn:Hrun.
      * left. exists e, [data]. split; [done|].
        by eapply process_error_kinds.
      * destruct (IH (tr ++ [EvProcess data]))
          as [(e & payloads & -> & He)|(tables & -> & Htables & Hall)].
        -- left. exists e, (data :: payloads). split; [|done].
           by rewrite <- app_assoc.
        -- right. exists (table :: tables).
           split; [by rewrite <- app_assoc|].
           split; [by constructor|]. constructor; eauto.
    + destruct (IH tr) as [(e & payloads & -> & He)|(tables & -> & Htables & Hall)].
      * left. eauto.
      * right. exists tables. split; [done|]. split; [done|].
        constructor; eauto.
Qed.

Lemma warn_all_cases raw_data : ∀ tr,
  Forall (λ data, ∃ keep, has_rates data = inr keep) raw_data →
  ∃ dates,
    warn_all raw_data tr = (inr (), tr ++ (EvWarning <$> dates)) ∧
    length dates = length (List.filter (λ data, negb (kept data)) raw_data).
Proof.
  induction raw_data as [|data raw_data IH]; intros tr Hall.
  - exists []. simpl. unfold mret, M_ret. by rewrite app_nil_r.
  - apply Forall_cons in Hall as [[keep Hhas] Hrest].
    destruct (no_rates_of_has_rates data keep Hhas) as [Hno [date Hdate]].
    rewrite warn_all_cons, Hno. cbn [List.filter].
    assert (kept data = keep) as -> by (unfold kept; by rewrite Hhas).
    destruct keep; simpl.
    + by apply IH.
    + rewrite Hdate.
      destruct (IH (tr ++ [EvWarning date]) Hrest) as (dates & -> & Hlen).
      exists (date :: dates). split.
      * by rewrite <- app_assoc.
      * simpl. by rewrite Hlen.
Qed.

Lemma first_failure_none_inr finish tasks : ∀ i,
  first_failure finish i tasks = None → tasks = inr <$> results tasks.
Proof.
  induction tasks as [|task tasks IH]; intros i Hnone; [reflexivity|].
  simpl in Hnone. destruct task as [e|v].
  - destruct (first_failure finish (S i) tasks) as [[t e']|];
      [destruct (Nat.ltb t (finish i))|]; discriminate Hnone.
  - unfold results. simpl. f_equal. by eapply IH.
Qed.

Lemma gather_returns finish tasks raw_data :
  gather finish tasks = inr raw_data → tasks = inr <$> raw_data.
Proof.
  unfold gather.
  destruct (first_failure finish 0 tasks) as [[t e]|] eqn:Hff; [discriminate|].
  intros [= <-]. by eapply first_failure_none_inr.
Qed.

Lemma gather_raises finish tasks e :
  gather finish tasks = inl e → inl e ∈ tasks.
Proof.
  unfold gather.
  destruct (first_failure finish 0 tasks) as [[t e']|] eqn:Hff; [|discriminate].
  intros [= <-]. by eapply first_failure_in.
Qed.

(** A call with a valid [days], step by step. *)
Lemma get_exchange_rates_unfold w days currencies tr :
  1 ≤ days ≤ 10 →
  get_exchange_rates w days currencies tr
  = let tr0 := tr ++ EvSessionOpen :: (EvFetch <$> dates_of w (Z.to_nat days))
                  ++ [EvSessionClose] in
    match gather (finish_time w) (tasks_of w (Z.to_nat days)) with
    | inl e => (inl e, tr0)
    | inr raw_data =>
        match process_all currencies raw_data tr0 with
        | (inl e, tr1) => (inl e, tr1)
        | (inr tables, tr1) =>
            match warn_all raw_data tr1 with
            | (inl e, tr2) => (inl e, tr2)
            | (inr _, tr2) => (inr tables, tr2)
            end
        end
    end.
Proof.
  intros Hdays. unfold get_exchange_rates. rewrite days_in_range by done.
  unfold with_session, mbind, M_bind, lift, mret, M_ret.
  rewrite dispatch_run. rewrite <- !app_assoc. cbn [app].
  destruct (gather (finish_time w) (tasks_of w (Z.to_nat days))); reflexivity.
Qed.

(** The three ways a call with a valid [days] ends. *)
Lemma get_exchange_rates_cases w days currencies tr :
  1 ≤ days ≤ 10 →
  let tasks := tasks_of w (Z.to_nat days) in
  let tr0 := tr ++ EvSessionOpen :: (EvFetch <$> dates_of w (Z.to_nat days))
                ++ [EvSessionClose] in
  (∃ msg,
     inl (ConnectionError msg) ∈ tasks ∧
     get_exchange_rates w days currencies tr = (inl (ConnectionError msg), tr0)) ∨
  (∃ raw_data e payloads,
     tasks = inr <$> raw_data ∧
     (e = AttributeError ∨ e = TypeError) ∧
     get_exchange_rates w days currencies tr
     = (inl e, tr0 ++ (EvProcess <$> payloads))) ∨
  (∃ raw_data tables dates,
     tasks = inr <$> raw_data ∧
     Forall2 (λ data table, process_exchange_rates data currencies = inr table)
             (List.filter kept raw_data) tables ∧
     length dates = length (List.filter (λ data, negb (kept data)) raw_data) ∧
     get_exchange_rates w days currencies tr
     = (inr tables, tr0 ++ (EvProcess <$> List.filter kept raw_data)
                        ++ (EvWarning <$> dates))).
Proof.
  intros Hdays tasks tr0.
  rewrite get_exchange_rates_unfold by done. cbv zeta. fold tasks tr0.
  destruct (gather (finish_time w) tasks) as [e|raw_data] eqn:Hgather.
  - left. apply gather_raises in Hgather.
    pose proof Hgather as Hin. unfold tasks, tasks_of in Hin.
    apply list_elem_of_fmap in Hin as (i & Hfetch & _).
    symmetry in Hfetch. apply fetch_raises_ConnectionError in Hfetch as [msg ->].
    eauto.
  - right. apply gather_returns in Hgather.
    destruct (process_all_cases currencies raw_data tr0)
      as [(e & payloads & -> & He)|(tables & -> & Htables & Hall)].
    + left. exists raw_data, e, payloads. done.
    + right.
      destruct (warn_all_cases raw_data
                  (tr0 ++ (EvProcess <$> List.filter kept raw_data)) Hall)
        as (dates & -> & Hlen).
      exists raw_data, tables, dates. by rewrite <- app_assoc.
Qed.

Lemma session_events_fetches dates : session_events (EvFetch <$> dates) = [].
Proof. unfold session_events. induction dates; simpl; done. Qed.

Lemma session_events_processes payloads :
  session_events (EvProcess <$> payloads) = [].
Proof. unfold session_events. induction payloads; simpl; done. Qed.

Lemma session_events_warnings dates : session_events (EvWarning <$> dates) = [].
Proof. unfold session_events. induction dates; simpl; done. Qed.

Lemma fetched_processes payloads : fetched (EvProcess <$> payloads) = [].
Proof. unfold fetched. induction payloads; simpl; done. Qed.

Lemma fetched_warnings dates : fetched (EvWarning <$> dates) = [].
Proof. unfold fetched. induction dates; simpl; done. Qed.

Lemma fetched_app tr1 tr2 : fetched (tr1 ++ tr2) = fetched tr1 ++ fetched tr2.
Proof. apply omap_app. Qed.

Lemma processed_app tr1 tr2 :
  processed (tr1 ++ tr2) = processed tr1 ++ processed tr2.
Proof. apply omap_app. Qed.

Lemma warnings_app tr1 tr2 : warnings (tr1 ++ tr2) = warnings tr1 ++ warnings tr2.
Proof. apply omap_app. Qed.

Lemma session_events_app tr1 tr2 :
  session_events (tr1 ++ tr2) = session_events tr1 ++ session_events tr2.
Proof. apply List.filter_app. Qed.

(** The parts of the trace of a call that got past the validation. *)
Lemma trace_parts dates payloads warned :
  let tr := ([] ++ EvSessionOpen :: (EvFetch <$> dates) ++ [EvSessionClose])
            ++ (EvProcess <$> payloads) ++ (EvWarning <$> warned) in
  fetched tr = dates ∧ processed tr = payloads ∧ warnings tr = warned ∧
  session_events tr = [EvSessionOpen; EvSessionClose].
Proof.
  intros tr.
  assert (tr = [EvSessionOpen] ++ (EvFetch <$> dates) ++ [EvSessionClose]
               ++ (EvProcess <$> payloads) ++ (EvWarning <$> warned)) as ->.
  { unfold tr. cbn [app]. by rewrite <- app_assoc. }
  rewrite !fetched_app, !processed_app, !warnings_app, !session_events_app.
  rewrite fetched_fetches, fetched_processes, fetched_warnings.
  rewrite processed_fetches, processed_processes, processed_warnings.
  rewrite warnings_fetches, warnings_processes, warnings_warnings.
  rewrite session_events_fetches, session_events_processes,
    session_events_warnings.
  cbn. by rewrite !app_nil_r.
Qed.

Lemma out_of_range_run w days currencies tr :
  (days <? 1) || (days >? 10) = true →
  get_exchange_rates w days currencies tr = (inl (ValueError validation_text), tr).
Proof. intros Hdays. unfold get_exchange_rates. by rewrite Hdays. Qed.

Lemma days_cases days :
  ((days <? 1) || (days >? 10) = true ∧ (days < 1 ∨ 10 < days)) ∨
  ((days <? 1) || (days >? 10) = false ∧ 1 ≤ days ≤ 10).
Proof.
  destruct (Z.ltb_spec days 1); [left; split; [done|lia]|].
  destruct (Z.gtb_spec days 10); [left|right]; (split; [done|lia]).
Qed.

Lemma process_table_keys data currencies table :
  process_exchange_rates data currencies = inr table →
  ∃ key rates, table = {[ key := rates ]} ∧ dom rates = list_to_set currencies.
Proof.
  intros (fields & key & -> & Hkey & Hrec & ->)%process_returns.
  eexists key, _. split; [reflexivity|].
  rewrite dom_fold_entries; rewrite dom_empty_rates; done.
Qed.



(** X10: when a request fails, the call raises the [ConnectionError] of a
    failed request right after the session is closed: no payload is passed
    to the processor and no warning is printed, also for the dates whose
    request succeeded. *)
Theorem failed_request_stops_the_batch w days currencies tr e :
  1 ≤ days ≤ 10 →
  inl e ∈ tasks_of w (Z.to_nat days) →
  ∃ msg,
    inl (ConnectionError msg) ∈ tasks_of w (Z.to_nat days) ∧
    get_exchange_rates w days currencies tr
    = (inl (ConnectionError msg),
       tr ++ EvSessionOpen :: (EvFetch <$> dates_of w (Z.to_nat days))
          ++ [EvSessionClose]).
Proof.
  intros Hdays Hin.
  destruct (get_exchange_rates_cases w days currencies tr Hdays)
    as [(msg & Hin' & Heq)|[(raw & e' & ps & Htasks & _)
                           |(raw & tables & ds & Htasks & _)]].
  - eauto.
  - rewrite Htasks in Hin. apply list_elem_of_fmap in Hin as (v & [=] & _).
  - rewrite Htasks in Hin. apply list_elem_of_fmap in Hin as (v & [=] & _).
Qed.

Lemma failed_request_stops_the_batch_witness :
  1 ≤ 3 ≤ 10 ∧
  inl (ConnectionError
         "Не вдалося отримати дані з API: Помилка отримання даних: 503")
    ∈ tasks_of world_503 (Z.to_nat 3) ∧
  ∃ msg,
    inl (ConnectionError msg) ∈ tasks_of world_503 (Z.to_nat 3) ∧
    get_exchange_rates world_503 3 ["EUR"; "USD"] []
    = (inl (ConnectionError msg),
       [] ++ EvSessionOpen :: (EvFetch <$> dates_of world_503 (Z.to_nat 3))
          ++ [EvSessionClose]).
Proof.
  assert (inl (ConnectionError
                 "Не вдалося отримати дані з API: Помилка отримання даних: 503")
            ∈ tasks_of world_503 (Z.to_nat 3)) as Hin.
  { apply list_elem_of_fmap. exists 1%nat. split; [reflexivity|].
    apply list_elem_of_In. simpl. tauto. }
  split; [lia|]. split; [exact Hin|].
  apply (failed_request_stops_the_batch world_503 3 ["EUR"; "USD"] []
           (ConnectionError
              "Не вдалося отримати дані з API: Помилка отримання даних: 503"));
    [lia|exact Hin].
Defined.

(** X11: a call opens the session once and closes it once when [days] is
    valid, also when a request fails or a payload makes the processing
    raise, and does not open it when [days] is rejected. *)
Theorem session_opened_and_closed_once w days currencies :
  session_events (get_exchange_rates w days currencies []).2
  = if (days <? 1) || (days >? 10) then [] else [EvSessionOpen; EvSessionClose].
Proof.
  destruct (days_cases days) as [[Hout Hdays]|[Hin Hdays]].
  - rewrite out_of_range_run by done. by rewrite Hout.
  - rewrite Hin.
    destruct (get_exchange_rates_cases w days currencies [] Hdays)
      as [(msg & _ & ->)|[(raw & e' & ps & _ & _ & ->)
                         |(raw & tables & ds & _ & _ & _ & ->)]];
      cbn [snd].
    + pose proof (trace_parts (dates_of w (Z.to_nat days)) [] []) as Hparts.
      cbn zeta in Hparts. rewrite !fmap_nil, !app_nil_r in Hparts.
      apply Hparts.
    + pose proof (trace_parts (dates_of w (Z.to_nat days)) ps []) as Hparts.
      cbn zeta in Hparts. rewrite !fmap_nil, !app_nil_r in Hparts.
      apply Hparts.
    + apply (trace_parts (dates_of w (Z.to_nat days))).
Qed.

(** X12: when a call returns, every requested date is accounted for exactly
    once: the number of tables and the number of warnings add up to [days],
    and the processor was called once for each table. *)
Theorem every_date_processed_or_warned w days currencies tables tr :
  get_exchange_rates w days currencies [] = (inr tables, tr) →
  Z.of_nat (length tables) + Z.of_nat (length (warnings tr)) = days ∧
  length (processed tr) = length tables.
Proof.
  intros Hrun. destruct (days_cases days) as [[Hout Hdays]|[_ Hdays]].
  { rewrite out_of_range_run in Hrun by done. discriminate Hrun. }
  destruct (get_exchange_rates_cases w days currencies [] Hdays)
    as [(msg & _ & Heq)|[(raw & e' & ps & _ & _ & Heq)
                        |(raw & tables' & ds & Htasks & Htables & Hlen & Heq)]];
    rewrite Heq in Hrun; try discriminate Hrun.
  pose proof (f_equal snd Hrun) as Htr. cbn [snd] in Htr. subst tr.
  injection Hrun as <-.
  destruct (trace_parts (dates_of w (Z.to_nat days)) (List.filter kept raw) ds)
    as (_ & -> & -> & _).
  apply Forall2_length in Htables. rewrite <- Htables, Hlen.
  split; [|done].
  assert (length raw = Z.to_nat days) as Hraw.
  { apply (f_equal length) in Htasks. unfold tasks_of in Htasks.
    rewrite !length_fmap, length_seq in Htasks. done. }
  pose proof (List.filter_length kept raw) as Hpart. lia.
Qed.

Lemma every_date_processed_or_warned_witness :
  get_exchange_rates world_ok 3 ["USD"; "EUR"] []
  = (inr [table_2024],
     [EvSessionOpen; EvFetch "01.01.2024"; EvFetch "31.12.2023";
      EvFetch "30.12.2023"; EvSessionClose; EvProcess payload_2024;
      EvWarning (JStr "31.12.2023"); EvWarning unknown_date]) ∧
  Z.of_nat (length [table_2024]) + Z.of_nat 2 = 3 ∧
  1%nat = length [table_2024].
Proof.
  split; [reflexivity|].
  apply (every_date_processed_or_warned world_ok 3 ["USD"; "EUR"] [table_2024]
           [EvSessionOpen; EvFetch "01.01.2024"; EvFetch "31.12.2023";
            EvFetch "30.12.2023"; EvSessionClose; EvProcess payload_2024;
            EvWarning (JStr "31.12.2023"); EvWarning unknown_date]).
  reflexivity.
Defined.



Lemma result_tables_keys w days currencies tr tables tr' :
  get_exchange_rates w days currencies tr = (inr tables, tr') →
  Forall (λ table : gmap pykey (gmap string (gmap string json)),
            ∃ key rates, table = {[ key := rates ]} ∧
                         dom rates = list_to_set currencies) tables.
Proof.
  intros Hrun. destruct (days_cases days) as [[Hout Hdays]|[_ Hdays]].
  { rewrite out_of_range_run in Hrun by done. discriminate Hrun. }
  destruct (get_exchange_rates_cases w days currencies tr Hdays)
    as [(msg & _ & Heq)|[(raw & e' & ps & _ & _ & Heq)
                        |(raw & tables' & ds & _ & Htables & _ & Heq)]];
    rewrite Heq in Hrun; try discriminate Hrun.
  injection Hrun as <- _. clear Heq.
  induction Htables as [|data table payloads tables' Hrun _ IH]; constructor.
  - by eapply process_table_keys.
  - exact IH.
Qed.

(** X14: every table of a returned result has one date key, and the keys of
    its currency mapping are exactly the requested currencies, whatever the
    payloads were. *)
Theorem result_tables_have_requested_keys w days currencies tr tables tr' :
  get_exchange_rates w days currencies tr = (inr tables, tr') →
  Forall (λ table : gmap pykey (gmap string (gmap string json)),
            ∃ key rates, table = {[ key := rates ]} ∧
                         dom rates = list_to_set currencies) tables.
Proof. apply result_tables_keys. Qed.

Lemma result_tables_have_requested_keys_witness :
  get_exchange_rates world_ok 3 ["USD"; "EUR"] []
  = (inr [table_2024],
     [EvSessionOpen; EvFetch "01.01.2024"; EvFetch "31.12.2023";
      EvFetch "30.12.2023"; EvSessionClose; EvProcess payload_2024;
      EvWarning (JStr "31.12.2023"); EvWarning unknown_date]) ∧
  Forall (λ table : gmap pykey (gmap string (gmap string json)),
            ∃ key rates, table = {[ key := rates ]} ∧
                         dom rates = list_to_set ["USD"; "EUR"]) [table_2024].
Proof.
  split; [reflexivity|].
  apply (result_tables_have_requested_keys world_ok 3 ["USD"; "EUR"] []
           [table_2024]
           [EvSessionOpen; EvFetch "01.01.2024"; EvFetch "31.12.2023";
            EvFetch "30.12.2023"; EvSessionClose; EvProcess payload_2024;
            EvWarning (JStr "31.12.2023"); EvWarning unknown_date]).
  reflexivity.
Defined.

(** ** main *)

Lemma own_lines_app_events tr last :
  match last with OutApp _ => False | _ => True end →
  own_lines ((OutApp <$> tr) ++ [last]) = [last].
Proof.
  intros Hlast. unfold own_lines. rewrite List.filter_app.
  assert (List.filter (λ o, match o with OutApp _ => false | _ => true end)
            (OutApp <$> tr) = []) as ->.
  { induction tr; simpl; done. }
  by destruct last.
Qed.

Lemma report_own e : match report e with OutApp _ => False | _ => True end.
Proof. by destruct e. Qed.

(** What [main] prints in the end, after the events of the call. *)
Lemma main_shape py_int w argv :
  ∃ tr last,
    main py_int w argv = (OutApp <$> tr) ++ [last] ∧
    match last with OutApp _ => False | _ => True end.
Proof.
  destruct argv as [|prog [|days_arg rest]]; simpl.
  - by exists [], (OutLine usage_line).
  - by exists [], (OutLine usage_line).
  - destruct (py_int days_arg) as [msg|days].
    + by exists [], (OutError "Помилка" (ValueError msg)).
    + destruct (get_exchange_rates w days (currencies_of rest) []) as [[e|rates] tr].
      * exists tr, (report e). split; [done|]. apply report_own.
      * by exists tr, (OutRates rates).
Qed.

(** X15: without a day count on the command line [main] prints the usage
    line and does nothing else. *)
Theorem main_without_days_prints_usage py_int w argv :
  (length argv < 2)%nat →
  main py_int w argv = [OutLine usage_line].
Proof.
  destruct argv as [|prog [|days_arg rest]]; simpl; [done|done|lia].
Qed.

Lemma main_without_days_prints_usage_witness :
  (length ["main.py"] < 2)%nat ∧
  main int_of_digits world_ok ["main.py"] = [OutLine usage_line].
Proof.
  split; [simpl; lia|].
  apply (main_without_days_prints_usage int_of_digits world_ok ["main.py"]).
  simpl; lia.
Defined.

(** X16: a day count that [int] rejects, or one outside 1..10, makes [main]
    print a single line [Помилка: ...] and nothing else: no session is
    opened and no request is made. *)
Theorem main_rejects_bad_days py_int w prog days_arg rest :
  (∃ msg, py_int days_arg = inl msg) ∨
  (∃ days, py_int days_arg = inr days ∧ (days < 1 ∨ 10 < days)) →
  ∃ msg, main py_int w (prog :: days_arg :: rest)
         = [OutError "Помилка" (ValueError msg)].
Proof.
  intros [[msg Hint]|(days & Hint & Hdays)]; simpl; rewrite Hint.
  - by exists msg.
  - exists validation_text. rewrite out_of_range_run; [done|].
    apply orb_true_iff. destruct Hdays; [left|right]; lia.
Qed.

Lemma main_rejects_bad_days_witness :
  ((∃ msg, int_of_digits "11" = inl msg) ∨
   (∃ days, int_of_digits "11" = inr days ∧ (days < 1 ∨ 10 < days))) ∧
  ∃ msg, main int_of_digits world_ok ["main.py"; "11"; "USD"]
         = [OutError "Помилка" (ValueError msg)].
Proof.
  assert ((∃ msg, int_of_digits "11" = inl msg) ∨
          (∃ days, int_of_digits "11" = inr days ∧ (days < 1 ∨ 10 < days)))
    as Hbad.
  { right. exists 11. split; [reflexivity|]. right. reflexivity. }
  split; [exact Hbad|].
  apply (main_rejects_bad_days int_of_digits world_ok "main.py" "11" ["USD"] Hbad).
Defined.

(** X17: when a request fails, whether the connection fails or the server
    answers with a status other than 200, [main] prints, after the calls of
    the fetcher, the single line [Мережева помилка: ...]; the result is not
    printed. *)
Theorem main_reports_failed_request py_int w prog days_arg rest days e :
  py_int days_arg = inr days →
  1 ≤ days ≤ 10 →
  inl e ∈ tasks_of w (Z.to_nat days) →
  ∃ msg,
    main py_int w (prog :: days_arg :: rest)
    = (OutApp <$> EvSessionOpen :: (EvFetch <$> dates_of w (Z.to_nat days))
                  ++ [EvSessionClose])
      ++ [OutError "Мережева помилка" (ConnectionError msg)].
Proof.
  intros Hint Hdays Hin. simpl. rewrite Hint.
  destruct (get_exchange_rates_cases w days (currencies_of rest) [] Hdays)
    as [(msg & _ & ->)|[(raw & e' & ps & Htasks & _)
                       |(raw & tables & ds & Htasks & _)]].
  - by exists msg.
  - rewrite Htasks in Hin. apply list_elem_of_fmap in Hin as (v & [=] & _).
  - rewrite Htasks in Hin. apply list_elem_of_fmap in Hin as (v & [=] & _).
Qed.

Lemma main_reports_failed_request_witness :
  int_of_digits "3" = inr 3 ∧
  1 ≤ 3 ≤ 10 ∧
  inl (ConnectionError
         "Не вдалося отримати дані з API: Помилка отримання даних: 503")
    ∈ tasks_of world_503 (Z.to_nat 3) ∧
  ∃ msg,
    main int_of_digits world_503 ["main.py"; "3"]
    = (OutApp <$> EvSessionOpen :: (EvFetch <$> dates_of world_503 (Z.to_nat 3))
                  ++ [EvSessionClose])
      ++ [OutError "Мережева помилка" (ConnectionError msg)].
Proof.
  assert (inl (ConnectionError
                 "Не вдалося отримати дані з API: Помилка отримання даних: 503")
            ∈ tasks_of world_503 (Z.to_nat 3)) as Hin.
  { apply list_elem_of_fmap. exists 1%nat. split; [reflexivity|].
    apply list_elem_of_In. simpl. tauto. }
  split; [reflexivity|]. split; [lia|]. split; [exact Hin|].
  apply (main_reports_failed_request int_of_digits world_503 "main.py" "3" [] 3
           (ConnectionError
              "Не вдалося отримати дані з API: Помилка отримання даних: 503"));
    [reflexivity|lia|exact Hin].
Defined.

(** X18: on every command line [main] prints exactly one line of its own,
    and it is the last thing it does: the usage line, the result, or one
    error line. *)
Theorem main_prints_one_closing_line py_int w argv :
  ∃ tr last,
    main py_int w argv = (OutApp <$> tr) ++ [last] ∧
    own_lines (main py_int w argv) = [last].
Proof.
  destruct (main_shape py_int w argv) as (tr & last & Hmain & Hlast).
  exists tr, last. split; [done|]. rewrite Hmain.
  by apply own_lines_app_events.
Qed.

(** X19: when [main] prints a result, every table in it has exactly the
    currencies of the command line as the keys of its currency mapping: the
    pieces of the third argument between commas, or EUR and USD when there
    is no third argument. *)
Theorem main_rates_have_requested_keys py_int w prog days_arg rest tables :
  OutRates tables ∈ main py_int w (prog :: days_arg :: rest) →
  Forall (λ table : gmap pykey (gmap string (gmap string json)),
            ∃ key rates,
              table = {[ key := rates ]} ∧
              dom rates = list_to_set
                            (match rest with
                             | arg :: _ => split_on comma arg
                             | [] => ["EUR"; "USD"]
                             end)) tables.
Proof.
  simpl. destruct (py_int days_arg) as [msg|days].
  { intros Hin. apply list_elem_of_singleton in Hin. discriminate Hin. }
  destruct (get_exchange_rates w days (currencies_of rest) []) as [r tr] eqn:Hrun.
  intros Hin. apply elem_of_app in Hin as [Hin|Hin].
  { apply list_elem_of_fmap in Hin as (ev & [=] & _). }
  destruct r as [e|rates]; apply list_elem_of_singleton in Hin.
  { by destruct e. }
  injection Hin as ->. by eapply result_tables_keys.
Qed.

Lemma main_rates_have_requested_keys_witness :
  OutRates [table_2024] ∈ main int_of_digits world_ok ["main.py"; "3"; "USD,EUR"] ∧
  Forall (λ table : gmap pykey (gmap string (gmap string json)),
            ∃ key rates,
              table = {[ key := rates ]} ∧
              dom rates = list_to_set (split_on comma "USD,EUR")) [table_2024].
Proof.
  assert (OutRates [table_2024]
            ∈ main int_of_digits world_ok ["main.py"; "3"; "USD,EUR"]) as Hin.
  { assert (main int_of_digits world_ok ["main.py"; "3"; "USD,EUR"]
            = (OutApp <$> (get_exchange_rates world_ok 3 ["USD"; "EUR"] []).2)
              ++ [OutRates [table_2024]]) as -> by reflexivity.
    apply elem_of_app. right. by apply list_elem_of_singleton. }
  split; [exact Hin|].
  apply (main_rates_have_requested_keys int_of_digits world_ok "main.py" "3"
           ["USD,EUR"] [table_2024] Hin).
Defined.
